(** * Outlier detection pipeline: a shallow embedding of [outlier_las.py]

    The Python module reads price records from CSV files, samples a window of
    consecutive rows, flags the rows whose price lies far above the window
    mean, and writes a report.  The embedding follows the five functions of
    the module:

    - [read_csv_with_headers]       (Record Loader)
    - [random_data_points]          (Window Sampler)
    - [detect_outliers]             (Outlier Scorer)
    - [process_file]                (File Processor)
    - [process_files_in_directory]  (Directory Orchestrator)

    Prices are IEEE-754 binary64 numbers (numpy's float64), modelled by the
    primitive floats.  A pandas DataFrame is an index of row labels with an
    association list of named columns.  Python exceptions are values of
    [exn]; code that can raise lives in a state-and-exception monad in which
    a raise keeps the state reached so far, as Python does.

    As the module is shipped, the Sampler calls [sample] on a pandas Index,
    which has no such method: the call raises, and no window reaches the
    Scorer through [process_file].  The statements on the Scorer and on
    what [process_file] does after the sampling take the window as
    given. *)

From Stdlib Require Import List String Ascii Bool Arith ZArith Lia.
From Stdlib Require Import Floats Uint63.
Import ListNotations.

Local Open Scope string_scope.
Local Open Scope list_scope.
Local Open Scope nat_scope.

(* ===================================================================== *)
(** * Values *)
(* ===================================================================== *)

(** One cell of a DataFrame.  [Null] is the missing marker (NaN, None, NaT);
    a [Num] holding a NaN counts as missing too.  [Time] is a parsed
    datetime, in nanoseconds. *)
Inductive cell :=
| Null
| Str (s : string)
| Num (f : float)
| Time (t : Z).

(** [pd.isnull] on one cell. *)
Definition isnull (c : cell) : bool :=
  match c with
  | Null => true
  | Num f => PrimFloat.is_nan f
  | _ => false
  end.

(* ===================================================================== *)
(** * Exceptions *)
(* ===================================================================== *)

(** The exception classes the module distinguishes in its handlers.
    [Exception_] is the base class itself, as raised by
    [raise Exception(...)]. *)
Inductive exn_class :=
| FileNotFoundError
| ValueError
| KeyError
| TypeError
| OSError
| AttributeError
| Exception_.

(** Texts produced by pandas, numpy or the operating system rather than by
    the module. *)
Inductive libfailure :=
| EmptyData                       (* read_csv: no columns to parse *)
| Unparsable                      (* read_csv: tokenizing or decoding error *)
| NoSuchFile                      (* open: no such file *)
| NotAFile                        (* open: is a directory *)
| NoAttribute (a : string)        (* the object has no attribute of this name *)
| NotAScalar                      (* item: not exactly one element *)
| NotNumeric (s : string)         (* to_numeric: unable to parse string *)
| MissingColumn (c : string)      (* df[c]: no such column *)
| NonNumericColumn                (* arithmetic on a non-numeric column *)
| NoSuchDirectory                 (* listdir: no such directory *)
| CannotWrite.                    (* to_csv: the target cannot be written *)

(** A message is the list of the pieces of an f-string. *)
Inductive fragment :=
| Txt (s : string)
| Int (n : nat)
| LibText (l : libfailure).

Definition message := list fragment.

Record exn := mk_exn { cls : exn_class; msg : message }.

(* ===================================================================== *)
(** * State and exceptions *)
(* ===================================================================== *)

(** A computation over a mutable state [St] that may raise.  The state
    component is returned in both cases. *)
Definition ST (St A : Type) : Type := St -> St * (exn + A).

Definition ret {St A} (a : A) : ST St A := fun s => (s, inr a).

Definition bind {St A B} (c : ST St A) (k : A -> ST St B) : ST St B :=
  fun s =>
    match c s with
    | (s', inl e) => (s', inl e)
    | (s', inr a) => k a s'
    end.

Definition raise {St A} (e : exn) : ST St A := fun s => (s, inl e).

(** [try: body  except ... as e: handler e] *)
Definition try_except {St A} (body : ST St A) (handler : exn -> ST St A)
  : ST St A :=
  fun s =>
    match body s with
    | (s', inl e) => handler e s'
    | (s', inr a) => (s', inr a)
    end.

(** Lifting of a pure result. *)
Definition lift {St A} (r : exn + A) : ST St A := fun s => (s, r).

(** The current state. *)
Definition get {St} : ST St St := fun s => (s, inr s).

Declare Scope st_scope.
Delimit Scope st_scope with st.
Notation "x <- c ;; k" := (bind c (fun x => k))
  (at level 61, c at next level, right associativity) : st_scope.
Notation "c ;;; k" := (bind c (fun _ => k))
  (at level 61, right associativity) : st_scope.

(* ===================================================================== *)
(** * float64 series *)
(* ===================================================================== *)

Definition float_of_nat (n : nat) : float :=
  PrimFloat.of_uint63 (Uint63.of_Z (Z.of_nat n)).

Definition float_of_Z (z : Z) : float :=
  if (z <? 0)%Z then PrimFloat.opp (PrimFloat.of_uint63 (Uint63.of_Z (- z)))
  else PrimFloat.of_uint63 (Uint63.of_Z z).

(** Sum of a series, accumulated from the left.  numpy may associate the
    additions of a long array differently, which matters only to the last
    bits of a rounded sum. *)
Definition fsum (xs : list float) : float :=
  fold_left PrimFloat.add xs 0%float.

(** The values pandas keeps with [skipna=True]. *)
Definition notna (xs : list float) : list float :=
  filter (fun x => negb (PrimFloat.is_nan x)) xs.

(** [Series.mean()]: the sum of the non-missing values over their count, NaN
    for an empty series. *)
Definition series_mean (xs : list float) : float :=
  let vs := notna xs in
  match vs with
  | [] => PrimFloat.nan
  | _ => (fsum vs / float_of_nat (List.length vs))%float
  end.

Definition sq (x : float) : float := (x * x)%float.

(** [Series.std()], with pandas' default [ddof=1]: the two-pass sample
    standard deviation, dividing by [count - 1]; NaN when
    [count <= 1]. *)
Definition series_std (xs : list float) : float :=
  let vs := notna xs in
  let count := List.length vs in
  if count <=? 1 then PrimFloat.nan
  else
    let avg := (fsum vs / float_of_nat count)%float in
    let sqr := map (fun x => sq (avg - x)%float) vs in
    PrimFloat.sqrt (fsum sqr / float_of_nat (count - 1))%float.

(* ===================================================================== *)
(** * DataFrames *)
(* ===================================================================== *)

Record DataFrame := mk_df {
  index : list nat;                       (* row labels *)
  columns : list (string * list cell)     (* named columns, in order *)
}.

Fixpoint lookup_col (name : string) (cols : list (string * list cell))
  : option (list cell) :=
  match cols with
  | [] => None
  | (n, v) :: rest => if String.eqb n name then Some v else lookup_col name rest
  end.

(** Assignment to a column: an existing column keeps its place, a new one
    goes last. *)
Fixpoint assign_col (name : string) (v : list cell)
  (cols : list (string * list cell)) : list (string * list cell) :=
  match cols with
  | [] => [(name, v)]
  | (n, w) :: rest =>
      if String.eqb n name then (n, v) :: rest
      else (n, w) :: assign_col name v rest
  end.

(** [df[name]] *)
Definition getitem (df : DataFrame) (name : string) : exn + list cell :=
  match lookup_col name (columns df) with
  | Some v => inr v
  | None => inl (mk_exn KeyError [LibText (MissingColumn name)])
  end.

(** [df[name] = v] *)
Definition setitem (df : DataFrame) (name : string) (v : list cell)
  : DataFrame :=
  mk_df (index df) (assign_col name v (columns df)).

Definition nrows (df : DataFrame) : nat := List.length (index df).

(** [df.empty]: some axis has length zero. *)
Definition empty (df : DataFrame) : bool :=
  match index df, columns df with
  | [], _ | _, [] => true
  | _, _ => false
  end.

(** [df.isnull().values.any()] *)
Definition isnull_any (df : DataFrame) : bool :=
  existsb (fun c => existsb isnull (snd c)) (columns df).

(** Selection of the entries whose mask bit is set. *)
Fixpoint select {A} (m : list bool) (xs : list A) : list A :=
  match m, xs with
  | b :: m', x :: xs' => if b then x :: select m' xs' else select m' xs'
  | _, _ => []
  end.

(** [df[mask]]: a new frame with the selected rows. *)
Definition mask_rows (df : DataFrame) (m : list bool) : DataFrame :=
  mk_df (select m (index df))
        (map (fun c => (fst c, select m (snd c))) (columns df)).

Definition slice {A} (a b : nat) (xs : list A) : list A :=
  firstn (b - a) (skipn a xs).

(** [df.iloc[a:b]] for [0 <= a]. *)
Definition iloc (df : DataFrame) (a b : Z) : DataFrame :=
  let a' := Z.to_nat a in
  let b' := Z.to_nat b in
  mk_df (slice a' b' (index df))
        (map (fun c => (fst c, slice a' b' (snd c))) (columns df)).

(** The numbers of a numeric column; arithmetic on anything else is a
    [TypeError]. *)
Fixpoint numbers (col : list cell) : exn + list float :=
  match col with
  | [] => inr []
  | Num f :: rest =>
      match numbers rest with
      | inr fs => inr (f :: fs)
      | inl e => inl e
      end
  | _ :: _ => inl (mk_exn TypeError [LibText NonNumericColumn])
  end.

(** [df.index[-k:]] *)
Definition last_labels (k : nat) (idx : list nat) : list nat :=
  skipn (List.length idx - k) idx.

(** [Index.difference] *)
Definition index_difference (a b : list nat) : list nat :=
  filter (fun i => negb (existsb (Nat.eqb i) b)) a.

(** Elementwise operation on two numeric series of one frame. *)
Fixpoint zip_with {A B C} (f : A -> B -> C) (xs : list A) (ys : list B)
  : list C :=
  match xs, ys with
  | x :: xs', y :: ys' => f x y :: zip_with f xs' ys'
  | _, _ => []
  end.

(** Reading and writing the columns of the frame held in the state. *)
Definition df_get (name : string) : ST DataFrame (list cell) :=
  fun data => (data, getitem data name).

Definition df_set (name : string) (v : list cell) : ST DataFrame unit :=
  fun data => (setitem data name v, inr tt).

Definition df_numbers (name : string) : ST DataFrame (list float) :=
  fun data =>
    match getitem data name with
    | inr c => (data, numbers c)
    | inl e => (data, inl e)
    end.

(** A scalar assigned to a column is repeated on every row. *)
Definition broadcast (df : DataFrame) (c : cell) : list cell :=
  map (fun _ => c) (index df).

(* ===================================================================== *)
(** * Files, standard output and the random source *)
(* ===================================================================== *)

(** A file is either unreadable as CSV or a list of lines of fields.  A
    field is kept as the cell its text denotes; a number met in a text
    column stays a [Num], which is what [pd.to_numeric] reads back from its
    text. *)
Inductive content :=
| Garbled
| Lines (ls : list (list cell)).

Record filesystem := mk_fs {
  dirs : list string;                  (* the directories that exist *)
  files : list (string * content);     (* the files, by path *)
  readonly : list string               (* paths that cannot be written *)
}.

Record world := mk_world {
  fs : filesystem;
  stdout : list message;               (* what [print] has written *)
  rng : list nat                       (* the state of the random source *)
}.

Definition ends_with (s suffix : string) : bool :=
  let n := String.length s in
  let m := String.length suffix in
  (m <=? n) && String.eqb (substring (n - m) m s) suffix.

(** [s[:-k]] *)
Definition drop_last (k : nat) (s : string) : string :=
  substring 0 (String.length s - k) s.

Definition strip_prefix (p s : string) : option string :=
  if prefix p s
  then Some (substring (String.length p) (String.length s - String.length p) s)
  else None.

(** [os.path.join(directory, file)] for a relative [file]. *)
Definition path_join (directory file : string) : string :=
  if String.eqb directory "" then file
  else if ends_with directory "/" then directory ++ file
  else directory ++ "/" ++ file.

Definition mem_string (s : string) (l : list string) : bool :=
  existsb (String.eqb s) l.

Fixpoint lookup_file (p : string) (l : list (string * content))
  : option content :=
  match l with
  | [] => None
  | (q, c) :: rest => if String.eqb q p then Some c else lookup_file p rest
  end.

Fixpoint store_file (p : string) (c : content) (l : list (string * content))
  : list (string * content) :=
  match l with
  | [] => [(p, c)]
  | (q, d) :: rest =>
      if String.eqb q p then (q, c) :: rest else (q, d) :: store_file p c rest
  end.

(** The entry name of path [p] when [p] lies directly in [directory]. *)
Definition child_name (directory p : string) : option string :=
  match strip_prefix (path_join directory "") p with
  | Some n =>
      if String.eqb n "" then None
      else match String.index 0 "/" n with
           | Some _ => None
           | None => Some n
           end
  | None => None
  end.

Definition entries (f : filesystem) (directory : string) : list string :=
  nodup string_dec
    (flat_map (fun p => match child_name directory p with
                        | Some n => [n]
                        | None => []
                        end)
              (map fst (files f) ++ dirs f)).

(** [os.listdir(directory)] *)
Definition os_listdir (directory : string) : ST world (list string) :=
  fun w =>
    if mem_string directory (dirs (fs w)) then (w, inr (entries (fs w) directory))
    else match lookup_file directory (files (fs w)) with
         | Some _ => (w, inl (mk_exn OSError [LibText NoSuchDirectory]))
         | None => (w, inl (mk_exn FileNotFoundError [LibText NoSuchDirectory]))
         end.

Definition open_read (p : string) : ST world content :=
  fun w =>
    if mem_string p (dirs (fs w)) then (w, inl (mk_exn OSError [LibText NotAFile]))
    else match lookup_file p (files (fs w)) with
         | Some c => (w, inr c)
         | None => (w, inl (mk_exn FileNotFoundError [LibText NoSuchFile]))
         end.

Definition open_write (p : string) (c : content) : ST world unit :=
  fun w =>
    if mem_string p (readonly (fs w)) || mem_string p (dirs (fs w))
    then (w, inl (mk_exn OSError [LibText CannotWrite]))
    else (mk_world (mk_fs (dirs (fs w)) (store_file p c (files (fs w)))
                          (readonly (fs w)))
                   (stdout w) (rng w),
          inr tt).

(** [print(m)] *)
Definition print (m : message) : ST world unit :=
  fun w => (mk_world (fs w) (stdout w ++ [m]) (rng w), inr tt).

(** [population.sample(n)] on a pandas Index.  A Series and a DataFrame
    have a method [sample]; an Index has none, so the attribute lookup
    raises, whatever the population and before anything is drawn. *)
Definition index_sample (population : list nat) (n : nat)
  : ST world (list nat) :=
  raise (mk_exn AttributeError [LibText (NoAttribute "sample")]).

(** [xs.item()]: the only element. *)
Definition item (xs : list nat) : ST world nat :=
  match xs with
  | [x] => ret x
  | _ => raise (mk_exn ValueError [LibText NotAScalar])
  end.

(** [for x in xs: body x] *)
Fixpoint for_each {St A} (xs : list A) (body : A -> ST St unit)
  : ST St unit :=
  match xs with
  | [] => ret tt
  | x :: rest => bind (body x) (fun _ => for_each rest body)
  end.

(** Running a computation on a local mutable object. *)
Definition on_object {St S A} (obj : S) (c : ST S A) : ST St (S * A) :=
  fun w =>
    match c obj with
    | (_, inl e) => (w, inl e)
    | (obj', inr a) => (w, inr (obj', a))
    end.

(* ===================================================================== *)
(** * pd.read_csv *)
(* ===================================================================== *)

(** A line padded to [k] fields, as pandas pads a short line with missing
    values.  A line with more than [k] fields is made a tokenizing error
    here, which is what pandas answers when the line is longer than the
    lines before it; pandas reads the extra leading field of a file whose
    lines all have it as a row label, and skips blank lines.  The
    statements on what the Loader returns are about files whose lines have
    three fields each. *)
Definition fit (k : nat) (line : list cell) : option (list cell) :=
  if List.length line <=? k
  then Some (line ++ repeat Null (k - List.length line))
  else None.

Fixpoint fit_all (k : nat) (ls : list (list cell)) : option (list (list cell)) :=
  match ls with
  | [] => Some []
  | l :: rest =>
      match fit k l, fit_all k rest with
      | Some l', Some rest' => Some (l' :: rest')
      | _, _ => None
      end
  end.

(** The frame with the given column names over the given data lines, under
    a fresh range index. *)
Definition frame_of (names : list string) (ls : list (list cell))
  : exn + DataFrame :=
  match fit_all (List.length names) ls with
  | None => inl (mk_exn ValueError [LibText Unparsable])
  | Some rows =>
      inr (mk_df (seq 0 (List.length rows))
                 (map (fun j => (nth j names "", map (fun r => nth j r Null) rows))
                      (seq 0 (List.length names))))
  end.

(** The label a header field gives its column.  Only text fields matter to
    the module, which compares the labels with its three expected names. *)
Definition label_of (c : cell) : string :=
  match c with
  | Str s => s
  | _ => "Unnamed"
  end.

Definition firstn_opt {A} (n : option nat) (xs : list A) : list A :=
  match n with
  | Some k => firstn k xs
  | None => xs
  end.

(** [pd.read_csv(path, names=..., nrows=...)].  Without [names] the first
    line is the header; with [names] every line is data. *)
Definition pd_read_csv (path : string) (names : option (list string))
  (nrows_ : option nat) : ST world DataFrame :=
  bind (open_read path) (fun c =>
    match c with
    | Garbled => raise (mk_exn ValueError [LibText Unparsable])
    | Lines [] => raise (mk_exn ValueError [LibText EmptyData])
    | Lines (first :: rest) =>
        match names with
        | None => lift (frame_of (map label_of first) (firstn_opt nrows_ rest))
        | Some ns => lift (frame_of ns (firstn_opt nrows_ (first :: rest)))
        end
    end).

(** [list(df.columns) == names] *)
Fixpoint string_list_eqb (a b : list string) : bool :=
  match a, b with
  | [], [] => true
  | x :: a', y :: b' => String.eqb x y && string_list_eqb a' b'
  | _, _ => false
  end.

(* ===================================================================== *)
(** * The module *)
(* ===================================================================== *)

Section Pipeline.

(** pandas' parsers of one text value, taken as parameters:
    [pd.to_datetime] and [pd.to_numeric] on a string. *)
Variable parse_datetime : string -> option Z.
Variable parse_numeric : string -> option float.

Local Open Scope st_scope.

Definition canonical_header : list string := ["Name"; "Timestamp"; "Price"].

(** ** Record Loader *)

Definition read_csv_with_headers (file_path : string) : ST world DataFrame :=
  try_except
    (df <- pd_read_csv file_path None (Some 1) ;;
     if string_list_eqb (map fst (columns df)) canonical_header
     then pd_read_csv file_path None None
     else pd_read_csv file_path (Some canonical_header) None)
    (fun e =>
       match cls e with
       | FileNotFoundError =>
           raise (mk_exn FileNotFoundError
                         [Txt "File '"; Txt file_path; Txt "' not found."])
       | _ => raise (mk_exn Exception_ (Txt "Error reading CSV file: " :: msg e))
       end).

(** ** Window Sampler *)

(** The integer a finite float truncates to. *)
Definition Z_of_float (f : float) : Z :=
  match Prim2SF f with
  | S754_finite s m e => cond_Zopp s (Z.shiftl (Zpos m) e)
  | _ => 0%Z
  end.

(** [pd.to_datetime(..., errors='coerce')] on one cell: what cannot be read
    as a date becomes the missing marker. *)
Definition to_datetime_cell (c : cell) : cell :=
  match c with
  | Null => Null
  | Time t => Time t
  | Str s =>
      match parse_datetime s with
      | Some t => Time t
      | None => Null
      end
  | Num f =>
      if PrimFloat.is_nan f || PrimFloat.is_infinity f then Null
      else let t := Z_of_float f in
           if (Z.abs t <? 2 ^ 63)%Z then Time t else Null
  end.

Definition InvalidTimestamps_text : message :=
  [Txt "All Timestamp values are invalid dates."].
Definition InsufficientData_text : message :=
  [Txt "Insufficient data points in the file."].

Definition random_data_points (file_path : string) (num_points : nat)
  : ST world DataFrame :=
  try_except
    (df <- read_csv_with_headers file_path ;;
     ts <- lift (getitem df "Timestamp") ;;
     let df := setitem df "Timestamp" (map to_datetime_cell ts) in
     ts <- lift (getitem df "Timestamp") ;;
     if forallb isnull ts
     then raise (mk_exn ValueError InvalidTimestamps_text)
     else
       let last_29_index := last_labels 29 (index df) in
       drawn <- index_sample (index_difference (index df) last_29_index) 1 ;;
       start_index <- item drawn ;;
       let start_index :=
         Z.max 0 (Z.of_nat start_index - Z.of_nat num_points + 1) in
       let selected_data :=
         iloc df start_index (start_index + Z.of_nat num_points) in
       if nrows selected_data <? num_points
       then raise (mk_exn ValueError InsufficientData_text)
       else ret selected_data)
    (fun e =>
       match cls e with
       | FileNotFoundError =>
           raise (mk_exn FileNotFoundError
                         [Txt "File '"; Txt file_path; Txt "' not found."])
       | ValueError =>
           raise (mk_exn ValueError (Txt "Error processing file: " :: msg e))
       | _ => raise (mk_exn Exception_ (Txt "Unexpected error: " :: msg e))
       end).

(** ** Outlier Scorer *)

(** [pd.to_numeric] on one cell. *)
Definition to_numeric_cell (c : cell) : exn + float :=
  match c with
  | Null => inr PrimFloat.nan
  | Num f => inr f
  | Time t => inr (float_of_Z t)
  | Str s =>
      match parse_numeric s with
      | Some f => inr f
      | None => inl (mk_exn ValueError [LibText (NotNumeric s)])
      end
  end.

Fixpoint to_numeric (col : list cell) : exn + list float :=
  match col with
  | [] => inr []
  | c :: rest =>
      match to_numeric_cell c with
      | inl e => inl e
      | inr f =>
          match to_numeric rest with
          | inl e => inl e
          | inr fs => inr (f :: fs)
          end
      end
  end.

Definition MissingValues_text : message :=
  [Txt "Data contains missing or invalid values."].
Definition DegenerateStatistics_text : message :=
  [Txt "Infinite mean or standard deviation."].

(** The state is the frame [data] the caller passed in: the function
    assigns to its columns. *)
Definition detect_outliers : ST DataFrame DataFrame :=
  try_except
    (data <- get ;;
     if isnull_any data
     then raise (mk_exn ValueError MissingValues_text)
     else
       price <- df_get "Price" ;;
       price <- lift (to_numeric price) ;;
       df_set "Price" (map Num price) ;;;
       price <- df_numbers "Price" ;;
       let mean := series_mean price in
       price <- df_numbers "Price" ;;
       let std_dev := series_std price in
       if PrimFloat.is_infinity mean || PrimFloat.is_infinity std_dev
       then raise (mk_exn ValueError DegenerateStatistics_text)
       else
         let threshold := (2 * std_dev)%float in
         price <- df_numbers "Price" ;;
         df_set "Price-Mean" (map Num (map (fun p => (p - mean)%float) price)) ;;;
         price_mean <- df_numbers "Price-Mean" ;;
         df_set "% Deviation"
                (map Num (map (fun d => (d / mean * 100)%float) price_mean)) ;;;
         price_mean <- df_numbers "Price-Mean" ;;
         data <- get ;;
         let outliers :=
           mask_rows data (map (fun d => (threshold <? d)%float) price_mean) in
         if negb (empty outliers)
         then
           let outliers :=
             setitem outliers "Mean of 30 Selected Datapoints"
                     (broadcast outliers (Num mean)) in
           price_mean <- lift (match getitem outliers "Price-Mean" with
                               | inr c => numbers c
                               | inl e => inl e
                               end) ;;
           ret (setitem outliers "% Deviation"
                  (map Num (map (fun d => (d / threshold * 100)%float)
                                price_mean)))
         else ret outliers)
    (fun e =>
       match cls e with
       | ValueError =>
           raise (mk_exn ValueError (Txt "Error detecting outliers: " :: msg e))
       | _ => raise (mk_exn Exception_ (Txt "Unexpected error: " :: msg e))
       end).

(** ** File Processor *)

Definition report_columns : list string :=
  ["Name"; "Timestamp"; "Actual Price"; "Mean of 30 Selected Datapoints";
   "Price-Mean"; "% Deviation"].

(** The columns of the report, assigned on the frame [outliers] held in the
    state; [sampled_data] is the window as the Scorer left it. *)
Definition assemble_report (sampled_data : DataFrame) : ST DataFrame unit :=
  price <- df_get "Price" ;;
  df_set "Actual Price" price ;;;
  name <- df_get "Name" ;;
  df_set "Name" name ;;;
  timestamp <- df_get "Timestamp" ;;
  df_set "Timestamp" timestamp ;;;
  sampled_price <- lift (match getitem sampled_data "Price" with
                         | inr c => numbers c
                         | inl e => inl e
                         end) ;;
  outliers <- get ;;
  df_set "Mean of 30 Selected Datapoints"
         (broadcast outliers (Num (series_mean sampled_price))) ;;;
  actual <- df_numbers "Actual Price" ;;
  mean <- df_numbers "Mean of 30 Selected Datapoints" ;;
  df_set "Price-Mean" (map Num (zip_with PrimFloat.sub actual mean)) ;;;
  price_mean <- df_numbers "Price-Mean" ;;
  mean <- df_numbers "Mean of 30 Selected Datapoints" ;;
  df_set "% Deviation"
         (map Num (zip_with (fun d m => (d / m * 100)%float) price_mean mean)).

(** The lines [to_csv(..., index=False, columns=cols)] writes: the header
    and one line per row. *)
Fixpoint pick_columns (df : DataFrame) (cols : list string)
  : exn + list (list cell) :=
  match cols with
  | [] => inr []
  | c :: rest =>
      match getitem df c, pick_columns df rest with
      | inr v, inr vs => inr (v :: vs)
      | inl e, _ => inl e
      | _, inl e => inl e
      end
  end.

Definition csv_lines (df : DataFrame) (cols : list string)
  : exn + list (list cell) :=
  match pick_columns df cols with
  | inl e => inl e
  | inr vs =>
      inr (map Str cols
           :: map (fun i => map (fun v => nth i v Null) vs)
                  (seq 0 (nrows df)))
  end.

Definition to_csv (df : DataFrame) (path : string) (cols : list string)
  : ST world unit :=
  ls <- lift (csv_lines df cols) ;;
  open_write path (Lines ls).

(** What [process_file] does with the window once it is sampled: the
    statements of its [try] block from the call of the Scorer on. *)
Definition process_sampled (file_path : string) (sampled_data : DataFrame)
  : ST world unit :=
  scored <- on_object sampled_data detect_outliers ;;
  let sampled_data := fst scored in
  let outliers := snd scored in
  if negb (empty outliers)
  then
    assembled <- on_object outliers (assemble_report sampled_data) ;;
    let outliers := fst assembled in
    to_csv outliers (drop_last 4 file_path ++ "_outliers.csv")
           report_columns ;;;
    print [Txt "Outliers found in "; Txt file_path]
  else print [Txt "No outliers found in "; Txt file_path].

(** The [try] block of [process_file]. *)
Definition process_file_try (file_path : string) : ST world unit :=
  df <- read_csv_with_headers file_path ;;
  if empty df
  then raise (mk_exn ValueError
                     [Txt "File '"; Txt file_path; Txt "' is empty."])
  else
    sampled_data <- random_data_points file_path 30 ;;
    process_sampled file_path sampled_data.

Definition process_file (file_path : string) : ST world unit :=
  try_except
    (process_file_try file_path)
    (fun e =>
       print (Txt "Error processing " :: Txt file_path :: Txt ": " :: msg e)).

(** ** Directory Orchestrator *)

Definition is_csv (file : string) : bool := ends_with file ".csv".

Definition InvalidFileCount_text (file_count : nat) : message :=
  [Txt "Invalid number of files in the directory: "; Int file_count;
   Txt ". Expected 1 or 2 files."].

Definition process_files_in_directory (directory : string) : ST world unit :=
  try_except
    (listing <- os_listdir directory ;;
     let file_count := List.length (filter is_csv listing) in
     if negb ((file_count =? 1) || (file_count =? 2))
     then raise (mk_exn ValueError (InvalidFileCount_text file_count))
     else
       listing <- os_listdir directory ;;
       for_each listing (fun file =>
         let file_path := path_join directory file in
         if is_csv file then process_file file_path else ret tt))
    (fun e =>
       match cls e with
       | FileNotFoundError =>
           raise (mk_exn FileNotFoundError
                         [Txt "Directory '"; Txt directory; Txt "' not found."])
       | _ => raise (mk_exn Exception_ (Txt "Error processing files: " :: msg e))
       end).

End Pipeline.

(* ===================================================================== *)
(** * Vocabulary of the statements *)
(* ===================================================================== *)

(** The Scorer's quantities for a window whose prices are [prices]. *)
Definition price_minus_mean (prices : list float) : list float :=
  map (fun p => (p - series_mean prices)%float) prices.

Definition threshold (prices : list float) : float :=
  (2 * series_std prices)%float.

(** The rows above the threshold, one bit per row. *)
Definition outlier_mask (prices : list float) : list bool :=
  map (fun d => (threshold prices <? d)%float) (price_minus_mean prices).

(** The window as the Scorer leaves it after a complete run. *)
Definition scored_window (data : DataFrame) (prices : list float)
  : DataFrame :=
  setitem
    (setitem (setitem data "Price" (map Num prices))
             "Price-Mean" (map Num (price_minus_mean prices)))
    "% Deviation"
    (map Num (map (fun d => (d / series_mean prices * 100)%float)
                  (price_minus_mean prices))).

(** The frame of flagged rows the Scorer returns when there is one. *)
Definition flagged_frame (data : DataFrame) (prices : list float)
  : DataFrame :=
  setitem
    (setitem (mask_rows (scored_window data prices) (outlier_mask prices))
             "Mean of 30 Selected Datapoints"
             (broadcast
                (mask_rows (scored_window data prices) (outlier_mask prices))
                (Num (series_mean prices))))
    "% Deviation"
    (map Num (map (fun d => (d / threshold prices * 100)%float)
                  (select (outlier_mask prices) (price_minus_mean prices)))).

(** The frame a complete run of the Scorer returns. *)
Definition scorer_output (data : DataFrame) (prices : list float)
  : DataFrame :=
  if negb (empty (mask_rows (scored_window data prices) (outlier_mask prices)))
  then flagged_frame data prices
  else mask_rows (scored_window data prices) (outlier_mask prices).

(** What the Scorer's handlers make of an exception of its body. *)
Definition scorer_error (e : exn) : exn :=
  match cls e with
  | ValueError => mk_exn ValueError (Txt "Error detecting outliers: " :: msg e)
  | _ => mk_exn Exception_ (Txt "Unexpected error: " :: msg e)
  end.

(** The error kinds of the specification, as the Scorer's and the Sampler's
    callers see them. *)
Definition MissingValues : exn :=
  scorer_error (mk_exn ValueError MissingValues_text).
Definition DegenerateStatistics : exn :=
  scorer_error (mk_exn ValueError DegenerateStatistics_text).
Definition InsufficientData : exn :=
  mk_exn ValueError (Txt "Error processing file: " :: InsufficientData_text).
Definition InvalidTimestamps : exn :=
  mk_exn ValueError (Txt "Error processing file: " :: InvalidTimestamps_text).

(** A row label is flagged when the Scorer returns it among the outliers. *)
Definition flagged (parse_numeric : string -> option float)
  (data : DataFrame) (label : nat) : bool :=
  match snd (detect_outliers parse_numeric data) with
  | inr outliers => existsb (Nat.eqb label) (index outliers)
  | inl _ => false
  end.

(** What the Loader's handlers make of an exception of its body. *)
Definition loader_error (file_path : string) (e : exn) : exn :=
  match cls e with
  | FileNotFoundError =>
      mk_exn FileNotFoundError [Txt "File '"; Txt file_path; Txt "' not found."]
  | _ => mk_exn Exception_ (Txt "Error reading CSV file: " :: msg e)
  end.

(** The header line of a file that has one. *)
Definition header_line : list cell := map Str canonical_header.

(** The table the Loader makes of data lines of three fields. *)
Definition table (rows : list (list cell)) : DataFrame :=
  mk_df (seq 0 (List.length rows))
        [("Name", map (fun r => nth 0 r Null) rows);
         ("Timestamp", map (fun r => nth 1 r Null) rows);
         ("Price", map (fun r => nth 2 r Null) rows)].

(** Its timestamps as the Sampler coerces them. *)
Definition coerced_timestamps (parse_datetime : string -> option Z)
  (rows : list (list cell)) : list cell :=
  map (to_datetime_cell parse_datetime) (map (fun r => nth 1 r Null) rows).

(** The error of the call of [sample] on the candidate start indices, as
    the Sampler's caller sees it. *)
Definition SampleError : exn :=
  mk_exn Exception_
         [Txt "Unexpected error: "; LibText (NoAttribute "sample")].

(** What the Sampler's handlers make of an exception of its body. *)
Definition sampler_error (file_path : string) (e : exn) : exn :=
  match cls e with
  | FileNotFoundError =>
      mk_exn FileNotFoundError [Txt "File '"; Txt file_path; Txt "' not found."]
  | ValueError => mk_exn ValueError (Txt "Error processing file: " :: msg e)
  | _ => mk_exn Exception_ (Txt "Unexpected error: " :: msg e)
  end.

(** The three lines [process_file] may print about a file. *)
Definition found_line (file_path : string) : message :=
  [Txt "Outliers found in "; Txt file_path].
Definition none_line (file_path : string) : message :=
  [Txt "No outliers found in "; Txt file_path].
Definition error_line (file_path : string) (e : exn) : message :=
  Txt "Error processing " :: Txt file_path :: Txt ": " :: msg e.


(** The path of the report of an input file. *)
Definition report_path (file_path : string) : string :=
  drop_last 4 file_path ++ "_outliers.csv".




(** Classes of binary64 values used below. *)
Definition is_pinf_or_nan (x : float) : Prop :=
  Prim2SF x = S754_nan \/ Prim2SF x = S754_infinity false.
Definition is_ninf_or_nan (x : float) : Prop :=
  Prim2SF x = S754_nan \/ Prim2SF x = S754_infinity true.

(** The errors about a file, as [process_file] prints them. *)
Definition FileNotFound (file_path : string) : exn :=
  mk_exn FileNotFoundError [Txt "File '"; Txt file_path; Txt "' not found."].
Definition EmptyFile (file_path : string) : exn :=
  mk_exn ValueError [Txt "File '"; Txt file_path; Txt "' is empty."].

(** The world after one more printed line. *)
Definition printed (w : world) (line : message) : world :=
  mk_world (fs w) (stdout w ++ [line]) (rng w).

(* ===================================================================== *)
(** * Sample inputs *)
(* ===================================================================== *)

(** A date parser and a number parser to run the module with: every text
    that starts with a digit is a date, and no text is a number. *)
Definition demo_datetime (s : string) : option Z :=
  match s with
  | String c _ =>
      if (48 <=? Ascii.nat_of_ascii c) && (Ascii.nat_of_ascii c <=? 57)
      then Some 0%Z
      else None
  | EmptyString => None
  end.

Definition demo_numeric (s : string) : option float := None.

(** A window with the given prices, under a range index. *)
Definition price_window (prices : list float) : DataFrame :=
  mk_df (seq 0 (List.length prices))
        [("Name", map (fun _ => Str "ACME") prices);
         ("Timestamp", map (fun _ => Time 0) prices);
         ("Price", map Num prices)].

(** The data lines of a file with the given prices. *)
Definition price_lines (prices : list float) : list (list cell) :=
  map (fun p => [Str "ACME"; Str "2024-01-02"; Num p]) prices.

(** A world whose directory [dir] holds the given files, with the given
    state of the random source. *)
Definition demo_world (files_ : list (string * content)) (draws : list nat)
  : world :=
  mk_world (mk_fs ["dir"] files_ []) [] draws.

(** Thirty prices: 29 times 100, then 1000. *)
Definition spike_prices : list float := repeat 100%float 29 ++ [1000%float].

(** The prices 0, 1, ..., n - 1. *)
Definition ramp_prices (n : nat) : list float := map float_of_nat (seq 0 n).

(** A file of the 30 prices above, with its header. *)
Definition spike_world : world :=
  demo_world [("dir/a.csv", Lines (header_line :: price_lines spike_prices))]
             [0].


(** A file of [n] rows without header. *)
Definition ramp_world (n : nat) : world :=
  demo_world [("dir/a.csv", Lines (price_lines (ramp_prices n)))] [].

(** A directory with an unreadable [.csv] file, a readable one and a file
    that is not eligible. *)
Definition two_files_world : world :=
  demo_world [("dir/bad.csv", Garbled);
              ("dir/good.csv", Lines (price_lines spike_prices));
              ("dir/notes.txt", Garbled)]
             [0].

(** Two data rows, and the same with a first row that reads like the
    header. *)
Definition two_rows : list (list cell) := price_lines [100; 101]%float.
Definition headerlike_rows : list (list cell) :=
  header_line :: price_lines [100]%float.

(** Three prices, the last of them tiny: 2^-700, about 1.9e-211. *)
Definition tiny_prices : list float := [0; 0; 0x1p-700]%float.

(** Two prices whose sum overflows: 2^1023 each. *)
Definition huge_prices : list float := [0x1p1023; 0x1p1023]%float.

(** A file that holds the header and nothing else. *)
Definition header_only_world : world :=
  demo_world [("dir/a.csv", Lines [header_line])] [].

(** A file of one row whose timestamp is no date. *)
Definition undated_rows : list (list cell) :=
  [[Str "ACME"; Str "n/a"; Num 5%float]].

Definition undated_world : world :=
  demo_world [("dir/a.csv", Lines undated_rows)] [].

(** A window with a missing name, and one with a price that is no number. *)
Definition nameless_window : DataFrame :=
  mk_df [0; 1]
        [("Name", [Str "ACME"; Null]);
         ("Timestamp", [Time 0; Time 0]);
         ("Price", [Num 1%float; Num 2%float])].

Definition text_price_window : DataFrame :=
  mk_df [0; 1]
        [("Name", [Str "ACME"; Str "ACME"]);
         ("Timestamp", [Time 0; Time 0]);
         ("Price", [Num 1%float; Str "abc"])].

(** Thirty equal prices. *)
Definition flat_prices : list float := repeat 100%float 30.

(* ===================================================================== *)
(** * Statements and proofs *)
(* ===================================================================== *)

(* ===================================================================== *)
(** * Facts about frames *)
(* ===================================================================== *)

Lemma lookup_assign_same name v cols :
  lookup_col name (assign_col name v cols) = Some v.
Proof.
  induction cols as [|[n w] rest IH]; simpl.
  - now rewrite String.eqb_refl.
  - destruct (String.eqb n name) eqn:E; simpl; rewrite E; auto.
Qed.

Lemma lookup_assign_other name other v cols :
  name <> other ->
  lookup_col other (assign_col name v cols) = lookup_col other cols.
Proof.
  intros Hne. induction cols as [|[n w] rest IH]; simpl.
  - destruct (String.eqb_spec name other); congruence.
  - destruct (String.eqb_spec n name) as [->|Hn]; simpl.
    + destruct (String.eqb_spec name other); congruence.
    + destruct (String.eqb n other); auto.
Qed.

Lemma getitem_setitem_same df name v : getitem (setitem df name v) name = inr v.
Proof. unfold getitem, setitem; simpl. now rewrite lookup_assign_same. Qed.

Lemma getitem_setitem_other df name other v :
  name <> other -> getitem (setitem df name v) other = getitem df other.
Proof. intros H. unfold getitem, setitem; simpl. now rewrite lookup_assign_other. Qed.

Lemma numbers_map_Num xs : numbers (map Num xs) = inr xs.
Proof. induction xs; simpl; [reflexivity | now rewrite IHxs]. Qed.

Lemma select_map {A B} (f : A -> B) m xs : select m (map f xs) = map f (select m xs).
Proof.
  revert xs; induction m as [|b m IH]; intros [|x xs]; simpl; auto.
  destruct b; simpl; now rewrite IH.
Qed.

Lemma lookup_mask name m cols :
  lookup_col name (map (fun c : string * list cell => (fst c, select m (snd c))) cols)
  = option_map (select m) (lookup_col name cols).
Proof.
  induction cols as [|[n w] rest IH]; simpl; auto.
  destruct (String.eqb n name); auto.
Qed.

(* ===================================================================== *)
(** * Facts about binary64 arithmetic *)
(* ===================================================================== *)

Lemma two_SF : exists m e, Prim2SF 2%float = S754_finite false m e.
Proof. vm_compute. eauto. Qed.

Lemma is_infinity_SF x :
  PrimFloat.is_infinity x = true -> exists s, Prim2SF x = S754_infinity s.
Proof.
  unfold PrimFloat.is_infinity. rewrite FloatAxioms.eqb_spec, FloatAxioms.abs_spec.
  change (Prim2SF infinity) with (S754_infinity false).
  destruct (Prim2SF x) as [s|s| |s m e]; simpl; try discriminate; eauto.
Qed.

Lemma is_nan_SF x : PrimFloat.is_nan x = true <-> Prim2SF x = S754_nan.
Proof.
  unfold PrimFloat.is_nan. rewrite FloatAxioms.eqb_spec.
  destruct (Prim2SF x) as [s|[]| |[] m e]; simpl; unfold SFeqb; simpl;
    try rewrite Z.compare_refl; try rewrite Pos.compare_cont_refl; simpl; split; try discriminate; auto.
Qed.

Ltac sf_cases x := destruct (Prim2SF x) as [[]|[]| |[] ? ?].

Lemma ltb_false_left t d : is_pinf_or_nan t -> (t <? d)%float = false.
Proof.
  intros [H|H]; rewrite FloatAxioms.ltb_spec, H; unfold SFltb.
  - reflexivity.
  - sf_cases d; reflexivity.
Qed.

Lemma ltb_false_right t d : is_ninf_or_nan d -> (t <? d)%float = false.
Proof.
  intros [H|H]; rewrite FloatAxioms.ltb_spec, H; unfold SFltb;
    sf_cases t; reflexivity.
Qed.

Lemma two_mul_class x : is_pinf_or_nan x -> is_pinf_or_nan (2 * x)%float.
Proof.
  destruct two_SF as (m & e & H2).
  intros [H|H]; unfold is_pinf_or_nan; rewrite FloatAxioms.mul_spec, H2, H; simpl; auto.
Qed.

Lemma sub_pinf p m :
  Prim2SF m = S754_infinity false -> is_ninf_or_nan (p - m)%float.
Proof.
  intros H. unfold is_ninf_or_nan. rewrite FloatAxioms.sub_spec, H.
  sf_cases p; simpl; auto.
Qed.

Lemma sub_from_ninf avg x :
  Prim2SF avg = S754_infinity true -> is_ninf_or_nan (avg - x)%float.
Proof.
  intros H. unfold is_ninf_or_nan. rewrite FloatAxioms.sub_spec, H.
  sf_cases x; simpl; auto.
Qed.

Lemma sub_nan_r p m : Prim2SF m = S754_nan -> is_ninf_or_nan (p - m)%float.
Proof.
  intros H. unfold is_ninf_or_nan. rewrite FloatAxioms.sub_spec, H.
  sf_cases p; simpl; auto.
Qed.

Lemma sq_class x : is_ninf_or_nan x -> is_pinf_or_nan (sq x).
Proof.
  unfold sq, is_pinf_or_nan. intros [H|H]; rewrite FloatAxioms.mul_spec, H; simpl; auto.
Qed.

Lemma add_class acc t :
  Prim2SF acc = S754_zero false \/ is_pinf_or_nan acc ->
  is_pinf_or_nan t -> is_pinf_or_nan (acc + t)%float.
Proof.
  unfold is_pinf_or_nan.
  intros [Ha|[Ha|Ha]] [Ht|Ht]; rewrite FloatAxioms.add_spec, Ha, Ht; simpl; auto.
Qed.

Lemma fold_add_class ts acc :
  Forall is_pinf_or_nan ts -> is_pinf_or_nan acc ->
  is_pinf_or_nan (fold_left PrimFloat.add ts acc).
Proof.
  intros H; revert acc; induction H as [|t ts Ht _ IH]; intros acc Ha; simpl; auto.
  apply IH, add_class; auto.
Qed.

Lemma fsum_class ts :
  ts <> [] -> Forall is_pinf_or_nan ts -> is_pinf_or_nan (fsum ts).
Proof.
  intros Hne H. destruct H as [|t ts Ht H]; [congruence|].
  unfold fsum; simpl. apply fold_add_class; auto.
  apply add_class; auto.
Qed.

Lemma sqrt_div_class x y :
  is_pinf_or_nan x -> is_pinf_or_nan (PrimFloat.sqrt (x / y))%float.
Proof.
  unfold is_pinf_or_nan. intros [H|H]; rewrite FloatAxioms.sqrt_spec, FloatAxioms.div_spec, H.
  - sf_cases y; simpl; auto.
  - sf_cases y; simpl; auto.
Qed.

(** A square root is NaN or carries no minus sign, except for [-0]. *)
Lemma sqrt_sign x :
  match Prim2SF (PrimFloat.sqrt x) with
  | S754_infinity true | S754_finite true _ _ => False
  | _ => True
  end.
Proof.
  rewrite FloatAxioms.sqrt_spec. unfold SF64sqrt, SFsqrt.
  destruct (Prim2SF x) as [[]|[]| |[] mx ex]; simpl; auto.
  destruct (SFsqrt_core_binary prec emax (Z.pos mx) ex) as [[mz ez] lz].
  unfold binary_round_aux.
  destruct (shr_fexp prec emax mz ez lz) as [m1 e1].
  destruct (shr_fexp prec emax _ e1 loc_Exact) as [m2 e2].
  destruct (shr_m m2); auto.
  destruct (Z.leb e2 (emax - prec)); auto.
Qed.

Lemma nan_SF : Prim2SF nan = S754_nan.
Proof. reflexivity. Qed.

Lemma std_of_ninf_mean xs :
  Prim2SF (series_mean xs) = S754_infinity true ->
  is_pinf_or_nan (series_std xs).
Proof.
  unfold series_mean, series_std.
  destruct (notna xs) as [|v vs] eqn:E.
  - rewrite nan_SF. discriminate.
  - intros H.
    destruct (List.length (v :: vs) <=? 1); [left; apply nan_SF|].
    apply sqrt_div_class, fsum_class; [discriminate|].
    apply Forall_map, Forall_forall. intros x _.
    apply sq_class, sub_from_ninf, H.
Qed.

Lemma std_infinite xs :
  PrimFloat.is_infinity (series_std xs) = true ->
  Prim2SF (series_std xs) = S754_infinity false.
Proof.
  intros H. destruct (is_infinity_SF _ H) as [[] Hs]; auto.
  exfalso. revert Hs. unfold series_std.
  destruct (_ <=? 1).
  - rewrite nan_SF. discriminate.
  - intros Hs. generalize (sqrt_sign (fsum (map (fun x : float =>
        sq (fsum (notna xs) / float_of_nat (List.length (notna xs)) - x))
        (notna xs)) / float_of_nat (List.length (notna xs) - 1))).
    rewrite Hs. auto.
Qed.

Lemma SFcompare_swap x y :
  SFcompare y x = option_map CompOpp (SFcompare x y).
Proof.
  destruct x as [[]|[]| |[] mx ex], y as [[]|[]| |[] my ey]; simpl;
    try reflexivity;
    rewrite (Z.compare_antisym ex ey); destruct (ex ?= ey)%Z; simpl;
    try reflexivity;
    rewrite (Pos.compare_cont_antisym mx my Eq); simpl; try reflexivity;
    destruct (Pos.compare_cont Eq mx my); reflexivity.
Qed.

(** [t < d] and [d <= t] exclude each other. *)
Lemma ltb_leb_exclusive t d :
  (t <? d)%float = true -> (d <=? t)%float = false.
Proof.
  rewrite FloatAxioms.ltb_spec, FloatAxioms.leb_spec. unfold SFltb, SFleb.
  rewrite (SFcompare_swap (Prim2SF t) (Prim2SF d)).
  destruct (SFcompare (Prim2SF t) (Prim2SF d)) as [[]|]; simpl; congruence.
Qed.

(** With an infinite mean or standard deviation no price lies above the
    threshold. *)
Lemma degenerate_not_above xs p :
  PrimFloat.is_infinity (series_mean xs) || PrimFloat.is_infinity (series_std xs) = true ->
  (2 * series_std xs <? p - series_mean xs)%float = false.
Proof.
  intros H. apply orb_true_iff in H. destruct H as [H|H].
  - destruct (is_infinity_SF _ H) as [[] Hs].
    + apply ltb_false_left, two_mul_class, std_of_ninf_mean, Hs.
    + apply ltb_false_right, sub_pinf, Hs.
  - apply ltb_false_left, two_mul_class. right. now apply std_infinite.
Qed.

(** Nor with an undefined one. *)
Lemma undefined_not_above xs p :
  PrimFloat.is_nan (series_mean xs) || PrimFloat.is_nan (series_std xs) = true ->
  (2 * series_std xs <? p - series_mean xs)%float = false.
Proof.
  intros H. apply orb_true_iff in H. destruct H as [H|H]; apply is_nan_SF in H.
  - apply ltb_false_right, sub_nan_r, H.
  - apply ltb_false_left, two_mul_class. now left.
Qed.

(** A price above the threshold witnesses a standard deviation that is a
    number, and not a negative one. *)
Lemma above_std_nonneg xs d :
  (2 * series_std xs <? d)%float = true ->
  (0 <=? series_std xs)%float = true.
Proof.
  intros H.
  assert (Hn : Prim2SF (series_std xs) <> S754_nan).
  { intros Hn. rewrite ltb_false_left in H; [discriminate|].
    apply two_mul_class. now left. }
  revert Hn. unfold series_std. destruct (_ <=? 1).
  - rewrite nan_SF. congruence.
  - match goal with |- context [PrimFloat.sqrt ?a] =>
      generalize (sqrt_sign a); set (r := PrimFloat.sqrt a) end.
    rewrite FloatAxioms.leb_spec. change (Prim2SF 0) with (S754_zero false).
    destruct (Prim2SF r) as [[]|[]| |[] ? ?]; simpl; intros; try reflexivity; try contradiction; congruence.
Qed.

(* ===================================================================== *)
(** * The Scorer *)
(* ===================================================================== *)

Section ScorerFacts.
Variable parse_numeric : string -> option float.

Lemma to_numeric_error col e :
  to_numeric parse_numeric col = inl e -> cls e = ValueError.
Proof.
  revert e; induction col as [|c rest IH]; simpl; intros e; [discriminate|].
  destruct c as [|s|f|t]; simpl.
  - destruct (to_numeric parse_numeric rest); [intros [= <-]; auto | discriminate].
  - destruct (parse_numeric s).
    + destruct (to_numeric parse_numeric rest); [intros [= <-]; auto | discriminate].
    + intros [= <-]. reflexivity.
  - destruct (to_numeric parse_numeric rest); [intros [= <-]; auto | discriminate].
  - destruct (to_numeric parse_numeric rest); [intros [= <-]; auto | discriminate].
Qed.

Lemma getitem_mask df m name :
  getitem (mask_rows df m) name =
  match getitem df name with
  | inr c => inr (select m c)
  | inl e => inl e
  end.
Proof.
  unfold getitem, mask_rows; simpl. rewrite lookup_mask.
  destruct (lookup_col name (columns df)); reflexivity.
Qed.

Lemma scorer_handler e (s : DataFrame) :
  match cls e with
  | ValueError =>
      @raise DataFrame DataFrame
        (mk_exn ValueError (Txt "Error detecting outliers: " :: msg e))
  | _ => raise (mk_exn Exception_ (Txt "Unexpected error: " :: msg e))
  end s = (s, inl (scorer_error e)).
Proof. unfold scorer_error. destruct (cls e); reflexivity. Qed.

Ltac frame_step :=
  first [ rewrite getitem_setitem_same
        | rewrite getitem_setitem_other by discriminate
        | rewrite getitem_mask
        | rewrite select_map
        | rewrite numbers_map_Num ];
  cbv beta iota.

(** The Scorer, case by case. *)
Lemma detect_outliers_cases data :
  detect_outliers parse_numeric data =
  if isnull_any data
  then (data, inl MissingValues)
  else
    match getitem data "Price" with
    | inl e => (data, inl (scorer_error e))
    | inr price =>
        match to_numeric parse_numeric price with
        | inl e => (data, inl (scorer_error e))
        | inr prices =>
            if PrimFloat.is_infinity (series_mean prices)
               || PrimFloat.is_infinity (series_std prices)
            then (setitem data "Price" (map Num prices),
                  inl DegenerateStatistics)
            else (scored_window data prices,
                  inr (scorer_output data prices))
        end
    end.
Proof.
  unfold detect_outliers, try_except, bind, get, df_get, df_set, df_numbers,
    lift, raise, ret.
  destruct (isnull_any data); [reflexivity|].
  destruct (getitem data "Price") as [e|price]; [apply scorer_handler|].
  destruct (to_numeric parse_numeric price) as [e|prices];
    [apply scorer_handler|].
  repeat frame_step.
  destruct (_ || _); [reflexivity|].
  repeat frame_step.
  unfold scorer_output, flagged_frame, scored_window, outlier_mask, threshold.
  fold (price_minus_mean prices).
  destruct (negb _); [|reflexivity].
  repeat frame_step. unfold price_minus_mean.
  rewrite ?select_map. reflexivity.
Qed.

Lemma index_scorer_output data prices :
  index (scorer_output data prices) = select (outlier_mask prices) (index data).
Proof.
  unfold scorer_output. destruct (negb _); reflexivity.
Qed.

Lemma select_subset {A} (m : list bool) (xs : list A) x :
  In x (select m xs) -> In x xs.
Proof.
  revert xs; induction m as [|b m IH]; intros [|y xs]; simpl; try tauto.
  destruct b; simpl; intuition.
Qed.

Lemma in_select_nodup {A} (m : list bool) (xs : list A) i x b :
  NoDup xs -> nth_error xs i = Some x -> nth_error m i = Some b ->
  In x (select m xs) <-> b = true.
Proof.
  intros Hnd; revert m i. induction Hnd as [|y xs Hy Hnd IH]; intros m i.
  - destruct i; discriminate.
  - destruct m as [|c m]; [destruct i; discriminate|].
    destruct i as [|i]; simpl.
    + intros [= ->] [= ->]. destruct b; simpl.
      * intuition.
      * split; [|discriminate]. intros H. apply select_subset in H. contradiction.
    + intros Hx Hb. rewrite <- (IH m i Hx Hb).
      destruct c; simpl; [|tauto].
      split; [|tauto]. intros [->|H]; [|exact H].
      apply nth_error_In in Hx. contradiction.
Qed.

Lemma select_none {A} (m : list bool) (xs : list A) :
  Forall (fun b => b = false) m -> select m xs = [].
Proof.
  intros H; revert xs; induction H as [|b m -> _ IH]; intros [|x xs]; simpl; auto.
Qed.

Lemma select_some {A} (m : list bool) (xs : list A) :
  select m xs <> [] -> In true m.
Proof.
  revert xs; induction m as [|b m IH]; intros [|x xs]; simpl; try congruence.
  destruct b; [auto|]. intros H. right. eapply IH, H.
Qed.

Lemma existsb_eqb_In label l :
  existsb (Nat.eqb label) l = true <-> In label l.
Proof.
  rewrite existsb_exists. split.
  - intros (x & Hx & E). apply Nat.eqb_eq in E. now subst.
  - intros H. exists label. split; [exact H | apply Nat.eqb_refl].
Qed.

Lemma outlier_mask_nth prices i price :
  nth_error prices i = Some price ->
  nth_error (outlier_mask prices) i =
  Some (2 * series_std prices <? price - series_mean prices)%float.
Proof.
  intros H. unfold outlier_mask, price_minus_mean, threshold.
  rewrite map_map.
  exact (map_nth_error
           (fun p => (2 * series_std prices <? p - series_mean prices)%float)
           i prices H).
Qed.

(** C1.  In a window without missing values whose prices are numeric, with
    mean the mean of the prices and std_dev their sample standard deviation
    (the one dividing by [N - 1]), a row is flagged exactly when its price
    minus mean is strictly greater than 2 * std_dev; the test is one-sided,
    and a row whose price minus mean is at or below 2 * std_dev is never
    flagged.  Rows are told apart by their labels, which a sampled window
    never repeats. *)
Theorem flagged_iff_above_threshold data price_col prices :
  isnull_any data = false ->
  getitem data "Price" = inr price_col ->
  to_numeric parse_numeric price_col = inr prices ->
  NoDup (index data) ->
  forall i label price,
    nth_error (index data) i = Some label ->
    nth_error prices i = Some price ->
    (flagged parse_numeric data label = true <->
     (2 * series_std prices <? price - series_mean prices)%float = true)
    /\
    ((price - series_mean prices <=? 2 * series_std prices)%float = true ->
     flagged parse_numeric data label = false).
Proof.
  intros Hnull Hcol Hnum Hnd i label price Hl Hp.
  assert (Hiff : flagged parse_numeric data label = true <->
                 (2 * series_std prices
                  <? price - series_mean prices)%float = true).
  { unfold flagged. rewrite detect_outliers_cases, Hnull, Hcol, Hnum.
    destruct (_ || _) eqn:Hinf; cbn [snd].
    - rewrite (degenerate_not_above _ _ Hinf). tauto.
    - rewrite index_scorer_output, existsb_eqb_In.
      apply (in_select_nodup _ _ i); auto.
      now apply outlier_mask_nth. }
  split; [exact Hiff|].
  intros Hle. destruct (flagged parse_numeric data label); [|reflexivity].
  apply proj1 in Hiff. specialize (Hiff eq_refl).
  apply ltb_leb_exclusive in Hiff. congruence.
Qed.

(** C7, as the code has it.  When the checks for missing values and numeric
    prices pass: if the mean or the sample standard deviation is infinite
    the Scorer fails with DegenerateStatistics; if neither is infinite but
    one of them is undefined (NaN, as the standard deviation of a one-row
    window is) the Scorer does not fail, and returns no outlier. *)
Theorem infinite_statistics_fail_undefined_pass data price_col prices :
  isnull_any data = false ->
  getitem data "Price" = inr price_col ->
  to_numeric parse_numeric price_col = inr prices ->
  (PrimFloat.is_infinity (series_mean prices)
   || PrimFloat.is_infinity (series_std prices) = true ->
   snd (detect_outliers parse_numeric data) = inl DegenerateStatistics)
  /\
  (PrimFloat.is_infinity (series_mean prices)
   || PrimFloat.is_infinity (series_std prices) = false ->
   PrimFloat.is_nan (series_mean prices)
   || PrimFloat.is_nan (series_std prices) = true ->
   exists outliers,
     snd (detect_outliers parse_numeric data) = inr outliers /\
     index outliers = []).
Proof.
  intros Hnull Hcol Hnum.
  rewrite detect_outliers_cases, Hnull, Hcol, Hnum.
  split; intros Hinf; rewrite Hinf; [reflexivity|].
  intros Hnan. eexists; split; [reflexivity|].
  rewrite index_scorer_output. apply select_none.
  unfold outlier_mask, price_minus_mean, threshold. rewrite map_map.
  apply Forall_map, Forall_forall. intros p _.
  now apply undefined_not_above.
Qed.

Lemma getitem_scored_window data prices c :
  c <> "Price" -> c <> "Price-Mean" -> c <> "% Deviation" ->
  getitem (scored_window data prices) c = getitem data c.
Proof.
  intros H1 H2 H3. unfold scored_window.
  rewrite !getitem_setitem_other; auto.
Qed.

(** C9, as the code has it.  The Scorer assigns to the window it is given:
    the window keeps its rows (its index) and every column other than
    Price, Price-Mean and % Deviation, but after a run that returns a
    report its Price column is the numeric coercion and it has gained the
    columns Price-Mean and % Deviation (the latter relative to the mean).
    The report itself is a separate frame. *)
Theorem scorer_mutates_its_window data :
  index (fst (detect_outliers parse_numeric data)) = index data
  /\
  (forall c, c <> "Price" -> c <> "Price-Mean" -> c <> "% Deviation" ->
             getitem (fst (detect_outliers parse_numeric data)) c
             = getitem data c)
  /\
  (forall outliers,
      snd (detect_outliers parse_numeric data) = inr outliers ->
      exists price_col prices,
        getitem data "Price" = inr price_col /\
        to_numeric parse_numeric price_col = inr prices /\
        fst (detect_outliers parse_numeric data) = scored_window data prices /\
        getitem (fst (detect_outliers parse_numeric data)) "Price"
        = inr (map Num prices) /\
        getitem (fst (detect_outliers parse_numeric data)) "Price-Mean"
        = inr (map Num (price_minus_mean prices)) /\
        getitem (fst (detect_outliers parse_numeric data)) "% Deviation"
        = inr (map Num (map (fun d => (d / series_mean prices * 100)%float)
                            (price_minus_mean prices)))).
Proof.
  rewrite detect_outliers_cases.
  destruct (isnull_any data); [repeat split; auto; discriminate|].
  destruct (getitem data "Price") as [e|price_col] eqn:Hcol;
    [repeat split; auto; discriminate|].
  destruct (to_numeric parse_numeric price_col) as [e|prices] eqn:Hnum;
    [repeat split; auto; discriminate|].
  destruct (_ || _); cbn [fst snd].
  - repeat split; auto; try discriminate.
    intros c H1 _ _. apply getitem_setitem_other. congruence.
  - repeat split; auto.
    + intros c. apply getitem_scored_window.
    + intros outliers _. exists price_col, prices.
      unfold scored_window. repeat split; auto.
      * rewrite !getitem_setitem_other by discriminate.
        apply getitem_setitem_same.
      * rewrite getitem_setitem_other by discriminate.
        apply getitem_setitem_same.
      * apply getitem_setitem_same.
Qed.

Lemma assign_col_nonempty name v cols : assign_col name v cols <> [].
Proof.
  destruct cols as [|[n w] rest]; simpl; [discriminate|].
  destruct (String.eqb n name); discriminate.
Qed.

Lemma empty_mask_scored data prices m :
  empty (mask_rows (scored_window data prices) m) = true ->
  select m (index data) = [].
Proof.
  unfold empty, mask_rows, scored_window, setitem; cbn [index columns].
  destruct (select m (index data)); [reflexivity|].
  destruct (assign_col "% Deviation" _ _) eqn:E; [|discriminate].
  now apply assign_col_nonempty in E.
Qed.

(** C10, as the code has it.  For a window that passes the checks, when the
    Scorer flags at least one row the sample standard deviation is a finite
    number that is not negative, hence so is the threshold; it may still be
    zero (the squared deviations of very small prices underflow), and the
    floating-point division by the threshold then yields an infinite
    % Deviation instead of raising.  In every case the flagged rows get
    their % Deviation as (Price-Mean / threshold) * 100. *)
Theorem flagged_rows_have_nonnegative_std data price_col prices outliers :
  isnull_any data = false ->
  getitem data "Price" = inr price_col ->
  to_numeric parse_numeric price_col = inr prices ->
  snd (detect_outliers parse_numeric data) = inr outliers ->
  index outliers <> [] ->
  (0 <=? series_std prices)%float = true /\
  PrimFloat.is_infinity (series_std prices) = false /\
  getitem outliers "% Deviation"
  = inr (map Num (map (fun d => (d / threshold prices * 100)%float)
                      (select (outlier_mask prices)
                              (price_minus_mean prices)))).
Proof.
  intros Hnull Hcol Hnum.
  rewrite detect_outliers_cases, Hnull, Hcol, Hnum.
  destruct (_ || _) eqn:Hinf; cbn [snd]; [intros H; discriminate H|].
  intros [= <-] Hne.
  apply orb_false_iff in Hinf. destruct Hinf as [_ Hstd].
  rewrite index_scorer_output in Hne.
  split; [|split; [exact Hstd|]].
  - apply select_some in Hne. unfold outlier_mask in Hne.
    apply in_map_iff in Hne. destruct Hne as (d & Hd & _).
    eapply above_std_nonneg, Hd.
  - unfold scorer_output. destruct (negb _) eqn:E.
    + apply getitem_setitem_same.
    + exfalso. apply negb_false_iff in E. apply Hne.
      now apply empty_mask_scored in E.
Qed.

End ScorerFacts.

(* ===================================================================== *)
(** * The Loader *)
(* ===================================================================== *)

Lemma string_list_eqb_eq a b : string_list_eqb a b = true <-> a = b.
Proof.
  revert b; induction a as [|x a IH]; intros [|y b]; simpl;
    try (split; [discriminate | congruence]); [tauto|].
  rewrite andb_true_iff, String.eqb_eq, IH. split.
  - intros [-> ->]; reflexivity.
  - intros [= -> ->]; auto.
Qed.

Lemma open_read_world p w : fst (open_read p w) = w.
Proof.
  unfold open_read. destruct (mem_string _ _); [reflexivity|].
  destruct (lookup_file _ _); reflexivity.
Qed.

Lemma map_nth_seq {A} (l : list A) d :
  map (fun j => nth j l d) (seq 0 (List.length l)) = l.
Proof.
  induction l as [|x l IH]; simpl; [reflexivity|].
  f_equal. rewrite <- seq_shift, map_map. exact IH.
Qed.

Lemma frame_of_names names ls df :
  frame_of names ls = inr df -> map fst (columns df) = names.
Proof.
  unfold frame_of. destruct (fit_all _ ls); [|discriminate].
  intros [= <-]. cbn [columns]. rewrite map_map. cbn [fst].
  apply map_nth_seq.
Qed.

Lemma frame_of_canonical ls :
  frame_of canonical_header ls =
  match fit_all 3 ls with
  | Some rows => inr (table rows)
  | None => inl (mk_exn ValueError [LibText Unparsable])
  end.
Proof. unfold frame_of. cbn [canonical_header List.length]. destruct (fit_all 3 ls); reflexivity. Qed.

Lemma loader_handler file_path e (w : world) :
  match cls e with
  | FileNotFoundError =>
      @raise world DataFrame
        (mk_exn FileNotFoundError
                [Txt "File '"; Txt file_path; Txt "' not found."])
  | _ => raise (mk_exn Exception_ (Txt "Error reading CSV file: " :: msg e))
  end w = (w, inl (loader_error file_path e)).
Proof. unfold loader_error. destruct (cls e); reflexivity. Qed.

Lemma pd_read_csv_cases path names nrows_ w :
  pd_read_csv path names nrows_ w =
  (w,
   match snd (open_read path w) with
   | inl e => inl e
   | inr Garbled => inl (mk_exn ValueError [LibText Unparsable])
   | inr (Lines []) => inl (mk_exn ValueError [LibText EmptyData])
   | inr (Lines (first :: rest)) =>
       match names with
       | None => frame_of (map label_of first) (firstn_opt nrows_ rest)
       | Some ns => frame_of ns (firstn_opt nrows_ (first :: rest))
       end
   end).
Proof.
  unfold pd_read_csv, bind, lift, raise.
  generalize (open_read_world path w).
  destruct (open_read path w) as [w' [e|c]]; cbn [fst snd]; intros ->;
    [reflexivity|].
  destruct c as [|[|first rest]]; try reflexivity.
  destruct names; reflexivity.
Qed.

(** The Loader, case by case, on the content of the file. *)
Lemma read_csv_with_headers_cases file_path w :
  read_csv_with_headers file_path w =
  (w,
   match snd (open_read file_path w) with
   | inl e => inl (loader_error file_path e)
   | inr Garbled =>
       inl (loader_error file_path (mk_exn ValueError [LibText Unparsable]))
   | inr (Lines []) =>
       inl (loader_error file_path (mk_exn ValueError [LibText EmptyData]))
   | inr (Lines (first :: rest)) =>
       match frame_of (map label_of first) (firstn 1 rest) with
       | inl e => inl (loader_error file_path e)
       | inr _ =>
           match (if string_list_eqb (map label_of first) canonical_header
                  then frame_of canonical_header rest
                  else frame_of canonical_header (first :: rest)) with
           | inl e => inl (loader_error file_path e)
           | inr df => inr df
           end
       end
   end).
Proof.
  unfold read_csv_with_headers, try_except, bind.
  rewrite pd_read_csv_cases.
  destruct (snd (open_read file_path w)) as [e|c] eqn:Hopen.
  - apply loader_handler.
  - destruct c as [|[|first rest]]; try apply loader_handler.
    cbn [firstn_opt].
    destruct (frame_of (map label_of first) (firstn 1 rest)) as [e|df] eqn:E;
      [apply loader_handler|].
    rewrite (frame_of_names _ _ _ E).
    destruct (string_list_eqb (map label_of first) canonical_header) eqn:Eh;
      rewrite pd_read_csv_cases, Hopen; cbn [firstn_opt].
    + apply string_list_eqb_eq in Eh. rewrite Eh.
      destruct (frame_of canonical_header rest); [apply loader_handler | reflexivity].
    + destruct (frame_of canonical_header (first :: rest));
        [apply loader_handler | reflexivity].
Qed.

(** The Loader returns the table of the data lines, and leaves the world
    as it was. *)
Lemma read_csv_with_headers_table file_path w w' df :
  read_csv_with_headers file_path w = (w', inr df) ->
  w' = w /\ exists rows, df = table rows.
Proof.
  rewrite read_csv_with_headers_cases. intros H.
  apply pair_equal_spec in H. destruct H as [<- H]. split; [reflexivity|].
  destruct (snd (open_read file_path w)) as [e|[|[|first rest]]];
    cbv beta match in H; try discriminate H.
  destruct (frame_of (map label_of first) (firstn 1 rest));
    cbv beta match in H; [discriminate H|].
  rewrite !frame_of_canonical in H.
  destruct (string_list_eqb _ _).
  - destruct (fit_all 3 rest) as [rows|]; cbv beta match in H;
      [|discriminate H].
    injection H as <-. now exists rows.
  - destruct (fit_all 3 (first :: rest)) as [rows|]; cbv beta match in H;
      [|discriminate H].
    injection H as <-. now exists rows.
Qed.

Lemma fit_exact k line : List.length line = k -> fit k line = Some line.
Proof.
  intros <-. unfold fit. rewrite Nat.leb_refl, Nat.sub_diag. simpl.
  now rewrite app_nil_r.
Qed.

Lemma fit_all_exact k ls :
  Forall (fun l => List.length l = k) ls -> fit_all k ls = Some ls.
Proof.
  induction 1 as [|l ls Hl _ IH]; simpl; [reflexivity|].
  now rewrite (fit_exact _ _ Hl), IH.
Qed.

Lemma Forall_take {A} (P : A -> Prop) k l :
  Forall P l -> Forall P (firstn k l).
Proof.
  intros H; revert k; induction H as [|x l Hx _ IH]; intros [|k]; simpl; auto.
Qed.

Lemma label_of_header first :
  map label_of first = canonical_header -> first = header_line.
Proof.
  unfold canonical_header, header_line.
  destruct first as [|a [|b [|c [|d rest]]]]; try discriminate.
  simpl. intros [= Ha Hb Hc].
  destruct a, b, c; simpl in *; try discriminate; congruence.
Qed.

(** C8, as the code has it.  For a data table with at least one row, each
    row of three fields, whose first row is not itself the text of the
    header: the Loader returns the same table for the file that starts with
    the header [Name,Timestamp,Price] and for the file without it. *)
Theorem header_presence_invariant file_path w1 w2 data :
  snd (open_read file_path w1) = inr (Lines (header_line :: data)) ->
  snd (open_read file_path w2) = inr (Lines data) ->
  Forall (fun l => List.length l = 3) data ->
  data <> [] ->
  hd [] data <> header_line ->
  snd (read_csv_with_headers file_path w1) = inr (table data) /\
  snd (read_csv_with_headers file_path w2) = inr (table data).
Proof.
  intros H1 H2 Hrows Hne Hfirst.
  rewrite !read_csv_with_headers_cases; cbn [snd]. rewrite H1, H2.
  split.
  - change (map label_of header_line) with canonical_header.
    rewrite !frame_of_canonical.
    rewrite (fit_all_exact 3 (firstn 1 data)) by (now apply Forall_take).
    cbn [string_list_eqb canonical_header]. rewrite !String.eqb_refl. cbn [andb].
    now rewrite (fit_all_exact 3 data).
  - destruct data as [|first rest]; [congruence|]. cbn [hd] in Hfirst.
    assert (Hlen : List.length (map label_of first) = 3).
    { rewrite length_map. now inversion Hrows. }
    unfold frame_of at 1. rewrite Hlen.
    rewrite (fit_all_exact 3 (firstn 1 rest))
      by (apply Forall_take; now inversion Hrows).
    destruct (string_list_eqb (map label_of first) canonical_header) eqn:E.
    + apply string_list_eqb_eq, label_of_header in E. contradiction.
    + rewrite frame_of_canonical. now rewrite (fit_all_exact 3 (first :: rest)).
Qed.

(* ===================================================================== *)
(** * The Sampler *)
(* ===================================================================== *)

Section SamplerFacts.
Variable parse_datetime : string -> option Z.

Lemma sampler_handler file_path e (w : world) :
  match cls e with
  | FileNotFoundError =>
      @raise world DataFrame
        (mk_exn FileNotFoundError
                [Txt "File '"; Txt file_path; Txt "' not found."])
  | ValueError =>
      raise (mk_exn ValueError (Txt "Error processing file: " :: msg e))
  | _ => raise (mk_exn Exception_ (Txt "Unexpected error: " :: msg e))
  end w =
  (w, inl (sampler_error file_path e)).
Proof. unfold sampler_error. destruct (cls e); reflexivity. Qed.

(** The Sampler on a table the Loader returns: when some timestamp is a
    date it gets as far as the call of [sample], which raises. *)
Lemma random_data_points_cases file_path num_points w rows :
  read_csv_with_headers file_path w = (w, inr (table rows)) ->
  random_data_points parse_datetime file_path num_points w =
  if forallb isnull (coerced_timestamps parse_datetime rows)
  then (w, inl InvalidTimestamps)
  else (w, inl SampleError).
Proof.
  intros Hload.
  unfold random_data_points, try_except, bind. rewrite Hload.
  unfold lift. change (getitem (table rows) "Timestamp")
    with (@inr exn _ (map (fun r => nth 1 r Null) rows)).
  cbv beta iota.
  rewrite getitem_setitem_same. fold (coerced_timestamps parse_datetime rows).
  destruct (forallb isnull (coerced_timestamps parse_datetime rows));
    reflexivity.
Qed.

Lemma random_data_points_load_error file_path num_points w e :
  snd (read_csv_with_headers file_path w) = inl e ->
  random_data_points parse_datetime file_path num_points w
  = (w, inl (sampler_error file_path e)).
Proof.
  intros H. unfold random_data_points, try_except, bind.
  rewrite read_csv_with_headers_cases in *. cbn [snd] in H. rewrite H.
  apply sampler_handler.
Qed.

(** The Sampler never returns, and leaves the world as it was. *)
Lemma random_data_points_raises file_path num_points w :
  exists e,
    random_data_points parse_datetime file_path num_points w = (w, inl e).
Proof.
  destruct (snd (read_csv_with_headers file_path w)) as [e|df] eqn:E.
  - rewrite (random_data_points_load_error _ _ _ _ E). eauto.
  - assert (H : read_csv_with_headers file_path w = (w, inr df)).
    { rewrite read_csv_with_headers_cases in *. cbn [snd] in E. now rewrite E. }
    destruct (read_csv_with_headers_table _ _ _ _ H) as (_ & rows & ->).
    rewrite (random_data_points_cases _ _ _ _ H).
    destruct (forallb _ _); eauto.
Qed.

(** X1.  On every table with a timestamp that reads as a date, whatever
    its number of rows and whatever the sample size, the Sampler raises
    where it should draw the start index: [sample] is called on an Index,
    which has no such method, and the generic handler re-raises the error
    with the text [Unexpected error: ...].  No window is returned, and the
    world is as it was. *)
Theorem sampler_raises_at_the_draw file_path num_points w rows :
  read_csv_with_headers file_path w = (w, inr (table rows)) ->
  forallb isnull (coerced_timestamps parse_datetime rows) = false ->
  random_data_points parse_datetime file_path num_points w
  = (w, inl SampleError).
Proof.
  intros Hload Hts.
  now rewrite (random_data_points_cases _ _ _ _ Hload), Hts.
Qed.

End SamplerFacts.

(* ===================================================================== *)
(** * The File Processor *)
(* ===================================================================== *)

Section ProcessorFacts.
Variable parse_datetime : string -> option Z.
Variable parse_numeric : string -> option float.

(** The [try] block, stage by stage. *)
Lemma process_file_try_cases file_path w :
  process_file_try parse_datetime parse_numeric file_path w =
  match snd (read_csv_with_headers file_path w) with
  | inl e => (w, inl e)
  | inr df =>
      if empty df
      then (w, inl (mk_exn ValueError
                           [Txt "File '"; Txt file_path; Txt "' is empty."]))
      else
        match random_data_points parse_datetime file_path 30 w with
        | (w1, inl e) => (w1, inl e)
        | (w1, inr sampled_data) =>
            match detect_outliers parse_numeric sampled_data with
            | (_, inl e) => (w1, inl e)
            | (sampled_data', inr outliers) =>
                if negb (empty outliers)
                then
                  match assemble_report sampled_data' outliers with
                  | (_, inl e) => (w1, inl e)
                  | (report, inr _) =>
                      match csv_lines report report_columns with
                      | inl e => (w1, inl e)
                      | inr ls =>
                          match open_write (report_path file_path) (Lines ls) w1
                          with
                          | (w2, inl e) => (w2, inl e)
                          | (w2, inr _) => print (found_line file_path) w2
                          end
                      end
                  end
                else print (none_line file_path) w1
            end
        end
  end.
Proof.
  unfold process_file_try, process_sampled, bind.
  rewrite read_csv_with_headers_cases.
  cbn [snd].
  match goal with |- context [match ?x with inl _ => _ | inr _ => _ end] =>
    destruct x as [e|df] end; [reflexivity|].
  destruct (empty df); [reflexivity|].
  destruct (random_data_points parse_datetime file_path 30 w)
    as [w1 [e|sampled_data]]; [reflexivity|].
  unfold on_object.
  destruct (detect_outliers parse_numeric sampled_data)
    as [sampled_data' [e|outliers]]; [reflexivity|].
  cbn [fst snd]. destruct (negb (empty outliers)); [|reflexivity].
  destruct (assemble_report sampled_data' outliers) as [report [e|[]]];
    [reflexivity|].
  cbn [fst]. unfold to_csv, bind, lift, report_path.
  destruct (csv_lines report report_columns) as [e|ls]; [reflexivity|].
  destruct (open_write _ _ w1) as [w2 [e|[]]]; reflexivity.
Qed.

(** The Sampler writes no file and prints nothing. *)
Lemma random_data_points_world file_path num_points w :
  fs (fst (random_data_points parse_datetime file_path num_points w)) = fs w /\
  stdout (fst (random_data_points parse_datetime file_path num_points w))
  = stdout w.
Proof.
  destruct (random_data_points_raises parse_datetime file_path num_points w)
    as (e & ->).
  split; reflexivity.
Qed.





End ProcessorFacts.

(** ** What the report holds *)











Lemma lookup_store p c l : lookup_file p (store_file p c l) = Some c.
Proof.
  induction l as [|[q d] rest IH]; simpl.
  - now rewrite String.eqb_refl.
  - destruct (String.eqb q p) eqn:E; simpl; rewrite E; auto.
Qed.


Section ReportFacts.
Variable parse_numeric : string -> option float.


(** What follows the sampling in [process_file], stage by stage. *)
Lemma process_sampled_cases file_path sampled_data w :
  process_sampled parse_numeric file_path sampled_data w =
  match detect_outliers parse_numeric sampled_data with
  | (_, inl e) => (w, inl e)
  | (sampled_data', inr outliers) =>
      if negb (empty outliers)
      then
        match assemble_report sampled_data' outliers with
        | (_, inl e) => (w, inl e)
        | (report, inr _) =>
            match csv_lines report report_columns with
            | inl e => (w, inl e)
            | inr ls =>
                match open_write (report_path file_path) (Lines ls) w with
                | (w2, inl e) => (w2, inl e)
                | (w2, inr _) => print (found_line file_path) w2
                end
            end
        end
      else print (none_line file_path) w
  end.
Proof.
  unfold process_sampled, bind, on_object.
  destruct (detect_outliers parse_numeric sampled_data)
    as [sampled_data' [e|outliers]]; [reflexivity|].
  cbn [fst snd]. destruct (negb (empty outliers)); [|reflexivity].
  destruct (assemble_report sampled_data' outliers) as [report [e|[]]];
    [reflexivity|].
  cbn [fst]. unfold to_csv, bind, lift, report_path.
  destruct (csv_lines report report_columns) as [e|ls]; [reflexivity|].
  destruct (open_write _ _ w) as [w2 [e|[]]]; reflexivity.
Qed.




End ReportFacts.

(* ===================================================================== *)
(** * The Orchestrator *)
(* ===================================================================== *)

Section OrchestratorFacts.
Variable parse_datetime : string -> option Z.
Variable parse_numeric : string -> option float.


End OrchestratorFacts.

(* ===================================================================== *)
(** * The statements at sample inputs *)
(* ===================================================================== *)

(** C1 at the window of 29 prices 100 and one price 1000: the row of the
    price 1000 is flagged, since 1000 - 130 exceeds twice the standard
    deviation. *)
Lemma flagged_iff_above_threshold_witness :
  flagged demo_numeric (price_window spike_prices) 29 = true <->
  (2 * series_std spike_prices <? 1000 - series_mean spike_prices)%float = true.
Proof.
  apply (fun Hnull Hcol Hnum Hnd Hl Hp =>
           proj1 (flagged_iff_above_threshold
                    demo_numeric (price_window spike_prices)
                    (map Num spike_prices) spike_prices
                    Hnull Hcol Hnum Hnd 29 29 1000%float Hl Hp)).
  - vm_compute; reflexivity.
  - vm_compute; reflexivity.
  - vm_compute; reflexivity.
  - apply seq_NoDup.
  - vm_compute; reflexivity.
  - vm_compute; reflexivity.
Defined.


(** C3 at a table of 100 rows with valid timestamps and N = 30: the
    candidate start indices are computed (all indices but the last 29),
    but the call of [sample] on them raises, and the Sampler fails with
    the text [Unexpected error: ...]: no start index is drawn and no
    window is realized. *)
Lemma sampler_raises_where_it_should_draw :
  index_difference (seq 0 100) (last_labels 29 (seq 0 100)) = seq 0 71 /\
  random_data_points demo_datetime "dir/a.csv" 30 (ramp_world 100)
  = (ramp_world 100, inl SampleError).
Proof. split; vm_compute; reflexivity. Qed.

(** C4 at a table of 40 rows and at a table of 10 rows, both with valid
    timestamps, and the default N = 30: the Sampler returns no window of
    30 rows for the first and does not fail with InsufficientData for the
    second; for both it fails at the call of [sample]. *)
Lemma sampler_returns_no_window_and_no_insufficient_data :
  random_data_points demo_datetime "dir/a.csv" 30 (ramp_world 40)
  = (ramp_world 40, inl SampleError) /\
  random_data_points demo_datetime "dir/a.csv" 30 (ramp_world 10)
  = (ramp_world 10, inl SampleError) /\
  SampleError <> InsufficientData.
Proof.
  split; [vm_compute; reflexivity|].
  split; [vm_compute; reflexivity | discriminate].
Qed.

(** X1 at a table of 35 rows and the sample size 5. *)
Lemma sampler_raises_at_the_draw_witness :
  random_data_points demo_datetime "dir/a.csv" 5 (ramp_world 35)
  = (ramp_world 35, inl SampleError).
Proof.
  apply (sampler_raises_at_the_draw demo_datetime "dir/a.csv" 5
           (ramp_world 35) (price_lines (ramp_prices 35))).
  - vm_compute; reflexivity.
  - vm_compute; reflexivity.
Defined.


(** What is printed there: an error for each of the two files, the second
    being the Sampler's. *)
Example second_file_is_still_processed :
  stdout (fst (process_files_in_directory demo_datetime demo_numeric "dir"
                                          two_files_world))
  = [error_line "dir/bad.csv"
       (mk_exn Exception_ [Txt "Error reading CSV file: "; LibText Unparsable]);
     error_line "dir/good.csv" SampleError].
Proof. vm_compute. reflexivity. Qed.


(** C7 as stated fails for a window of one row: its standard deviation is
    undefined, and the Scorer returns normally, with no outlier. *)
Lemma one_row_window_is_scored :
  PrimFloat.is_nan (series_std [100%float]) = true /\
  snd (detect_outliers demo_numeric (price_window [100%float]))
  = inr (mk_df [] [("Name", []); ("Timestamp", []); ("Price", []);
                   ("Price-Mean", []); ("% Deviation", [])]).
Proof. split; vm_compute; reflexivity. Qed.

(** C7, as the code has it, at two prices whose sum overflows. *)
Lemma infinite_statistics_fail_undefined_pass_witness :
  snd (detect_outliers demo_numeric (price_window huge_prices))
  = inl DegenerateStatistics.
Proof.
  apply (proj1 (infinite_statistics_fail_undefined_pass
                  demo_numeric (price_window huge_prices)
                  (map Num huge_prices) huge_prices
                  eq_refl eq_refl eq_refl)).
  vm_compute; reflexivity.
Defined.

(** C8 as stated fails for a table whose first row reads [Name], [Timestamp],
    [Price]: with a header above it the Loader returns both rows, without
    one it takes that row for the header and returns one row. *)
Lemma headerlike_first_row_is_consumed :
  snd (read_csv_with_headers "dir/a.csv"
         (demo_world [("dir/a.csv", Lines (header_line :: headerlike_rows))] []))
  = inr (table headerlike_rows) /\
  snd (read_csv_with_headers "dir/a.csv"
         (demo_world [("dir/a.csv", Lines headerlike_rows)] []))
  = inr (table (price_lines [100%float])) /\
  nrows (table headerlike_rows) = 2 /\
  nrows (table (price_lines [100%float])) = 1.
Proof. repeat split; vm_compute; reflexivity. Qed.

(** C8, as the code has it, at a table of two rows. *)
Lemma header_presence_invariant_witness :
  snd (read_csv_with_headers "dir/a.csv"
         (demo_world [("dir/a.csv", Lines (header_line :: two_rows))] []))
  = inr (table two_rows) /\
  snd (read_csv_with_headers "dir/a.csv"
         (demo_world [("dir/a.csv", Lines two_rows)] []))
  = inr (table two_rows).
Proof.
  apply (header_presence_invariant "dir/a.csv" _ _ two_rows).
  - vm_compute; reflexivity.
  - vm_compute; reflexivity.
  - repeat constructor.
  - discriminate.
  - discriminate.
Defined.

(** C9 as stated fails for the window of the prices 100, 100, 1000: after
    scoring, the window has two more columns. *)
Lemma window_is_changed_by_scoring :
  fst (detect_outliers demo_numeric (price_window [100; 100; 1000]%float))
  = scored_window (price_window [100; 100; 1000]%float) [100; 100; 1000]%float
  /\
  List.length (columns (price_window [100; 100; 1000]%float)) = 3 /\
  List.length
    (columns (fst (detect_outliers demo_numeric
                     (price_window [100; 100; 1000]%float)))) = 5 /\
  getitem (price_window [100; 100; 1000]%float) "Price-Mean"
  = inl (mk_exn KeyError [LibText (MissingColumn "Price-Mean")]) /\
  getitem (fst (detect_outliers demo_numeric
                  (price_window [100; 100; 1000]%float))) "Price-Mean"
  = inr [Num (-300); Num (-300); Num 600]%float.
Proof. repeat split; vm_compute; reflexivity. Qed.

(** C10 as stated fails for the prices 0, 0 and 2^-700: the squared
    deviations underflow, the standard deviation and the threshold are 0,
    the third row is flagged, and the division by the threshold gives an
    infinite % Deviation. *)
Lemma flagged_row_with_zero_std :
  series_std tiny_prices = 0%float /\
  threshold tiny_prices = 0%float /\
  PrimFloat.is_infinity (series_mean tiny_prices) = false /\
  match snd (detect_outliers demo_numeric (price_window tiny_prices)) with
  | inr outliers =>
      index outliers = [2] /\
      getitem outliers "% Deviation" = inr [Num infinity]
  | inl _ => False
  end.
Proof. repeat split; vm_compute; reflexivity. Qed.

(** C10, as the code has it, at the window of 29 prices 100 and one price
    1000. *)
Lemma flagged_rows_have_nonnegative_std_witness :
  (0 <=? series_std spike_prices)%float = true /\
  PrimFloat.is_infinity (series_std spike_prices) = false /\
  getitem (scorer_output (price_window spike_prices) spike_prices)
          "% Deviation"
  = inr (map Num (map (fun d => (d / threshold spike_prices * 100)%float)
                      (select (outlier_mask spike_prices)
                              (price_minus_mean spike_prices)))).
Proof.
  apply (flagged_rows_have_nonnegative_std demo_numeric
           (price_window spike_prices) (map Num spike_prices)).
  - vm_compute; reflexivity.
  - vm_compute; reflexivity.
  - vm_compute; reflexivity.
  - vm_compute; reflexivity.
  - discriminate.
Defined.
(* ===================================================================== *)
(** * Paths and reports *)
(* ===================================================================== *)

Lemma string_length_append a b :
  String.length (a ++ b)%string = String.length a + String.length b.
Proof. induction a as [|c a IH]; simpl; [reflexivity | now rewrite IH]. Qed.

Lemma length_substring_0 k s :
  String.length (substring 0 k s) = Nat.min k (String.length s).
Proof.
  revert k; induction s as [|c s IH]; intros [|k]; simpl; auto.
Qed.

Lemma substring_skip a b k m :
  substring (String.length a + k) m (a ++ b)%string = substring k m b.
Proof. induction a as [|c a IH]; simpl; auto. Qed.

Lemma substring_0_append a b k :
  substring 0 (String.length a + k) (a ++ b)%string
  = (a ++ substring 0 k b)%string.
Proof. induction a as [|c a IH]; simpl; [reflexivity | now rewrite IH]. Qed.

Lemma string_append_assoc a b c :
  ((a ++ b) ++ c)%string = (a ++ (b ++ c))%string.
Proof. induction a as [|x a IH]; simpl; [reflexivity | now rewrite IH]. Qed.

Lemma length_report_path p :
  String.length (report_path p) = String.length p - 4 + 13.
Proof.
  unfold report_path, drop_last.
  rewrite string_length_append, length_substring_0.
  cbn [String.length]. lia.
Qed.

Lemma report_path_differs p : report_path p <> p.
Proof.
  intros H. apply (f_equal String.length) in H.
  rewrite length_report_path in H. lia.
Qed.

Lemma report_path_append pre file :
  4 <= String.length file ->
  report_path (pre ++ file)%string = (pre ++ report_path file)%string.
Proof.
  intros H. unfold report_path, drop_last.
  rewrite string_length_append.
  replace (String.length pre + String.length file - 4)
    with (String.length pre + (String.length file - 4)) by lia.
  now rewrite substring_0_append, string_append_assoc.
Qed.

Lemma path_join_append directory :
  exists pre, forall file, path_join directory file = (pre ++ file)%string.
Proof.
  unfold path_join. destruct (String.eqb directory "").
  - now exists "".
  - destruct (ends_with directory "/").
    + now exists directory.
    + exists (directory ++ "/")%string. intros file.
      now rewrite string_append_assoc.
Qed.

Lemma is_csv_report_path p : is_csv (report_path p) = true.
Proof.
  unfold is_csv, ends_with. rewrite length_report_path.
  unfold report_path.
  replace (String.length p - 4 + 13 - String.length ".csv")
    with (String.length (drop_last 4 p) + 9).
  - rewrite substring_skip. cbn [String.length]. 
    replace (4 <=? String.length p - 4 + 13) with true
      by (symmetry; apply Nat.leb_le; lia).
    reflexivity.
  - unfold drop_last. rewrite length_substring_0. cbn [String.length]. lia.
Qed.

Lemma lookup_store_other p q c l :
  p <> q -> lookup_file p (store_file q c l) = lookup_file p l.
Proof.
  intros Hne. induction l as [|[r d] rest IH]; simpl.
  - destruct (String.eqb_spec q p); congruence.
  - destruct (String.eqb_spec r q) as [->|Hr]; simpl.
    + destruct (String.eqb_spec q p); congruence.
    + destruct (String.eqb r p); auto.
Qed.

(** X14.  The report of an input file is never the input file itself, and
    its path ends in [.csv]; for an entry of a directory whose name ends in
    [.csv] it lies in the same directory, under the entry's name with its
    last four characters replaced by [_outliers.csv], a name that the
    Orchestrator's test for [.csv] entries accepts in its turn. *)
Theorem report_is_a_csv_beside_its_input directory file :
  is_csv (report_path (path_join directory file)) = true /\
  report_path (path_join directory file) <> path_join directory file /\
  is_csv (report_path file) = true /\
  (is_csv file = true ->
   report_path (path_join directory file)
   = path_join directory (report_path file)).
Proof.
  split; [apply is_csv_report_path|]. split; [apply report_path_differs|].
  split; [apply is_csv_report_path|].
  intros Hcsv. unfold is_csv, ends_with in Hcsv.
  apply andb_true_iff in Hcsv. destruct Hcsv as [Hlen _].
  apply Nat.leb_le in Hlen. cbn [String.length] in Hlen.
  destruct (path_join_append directory) as (pre & Hpre).
  rewrite !Hpre. now apply report_path_append.
Qed.

(* ===================================================================== *)
(** * What a run leaves behind *)
(* ===================================================================== *)

Section ProcessorOutcomes.
Variable parse_datetime : string -> option Z.
Variable parse_numeric : string -> option float.

(** With the shipped Sampler the [try] block of [process_file] always
    raises, so that [process_file] prints the error of the file and
    changes nothing else. *)
Lemma process_file_fails file_path w :
  exists e,
    process_file parse_datetime parse_numeric file_path w
    = (printed w (error_line file_path e), inr tt).
Proof.
  unfold process_file, try_except. rewrite process_file_try_cases.
  destruct (snd (read_csv_with_headers file_path w)) as [e|df];
    [eexists; reflexivity|].
  destruct (empty df); [eexists; reflexivity|].
  destruct (random_data_points_raises parse_datetime file_path 30 w)
    as (e & ->).
  eexists; reflexivity.
Qed.

Ltac error_outcome :=
  eexists; split; [reflexivity|];
  unfold print; cbn [fs stdout rng fst];
  left; split; [first [reflexivity | assumption]|];
  eexists; split;
  [ first [ reflexivity
          | match goal with H : stdout _ = _ |- _ => now rewrite H end ]
  | right; eexists; reflexivity ].

(** A run of [process_file] returns normally and leaves one of two worlds:
    the file system as it was and one line that is not the line of a
    report, or the report stored and the line [Outliers found in].  This
    holds of the [try] block as it is written, whatever the Sampler
    returns. *)
Lemma process_file_outcomes file_path w :
  exists w',
    process_file parse_datetime parse_numeric file_path w = (w', inr tt) /\
    ((fs w' = fs w /\
      exists line, stdout w' = stdout w ++ [line] /\
                   (line = none_line file_path \/
                    exists e, line = error_line file_path e)) \/
     (stdout w' = stdout w ++ [found_line file_path] /\
      exists ls,
        fs w' = mk_fs (dirs (fs w))
                      (store_file (report_path file_path) (Lines ls)
                                  (files (fs w)))
                      (readonly (fs w)))).
Proof.
  unfold process_file, try_except. rewrite process_file_try_cases.
  destruct (snd (read_csv_with_headers file_path w)) as [e|df];
    [error_outcome|].
  destruct (empty df); [error_outcome|].
  destruct (random_data_points_world parse_datetime file_path 30 w)
    as [Hfs Hout].
  destruct (random_data_points parse_datetime file_path 30 w)
    as [w1 [e|sampled_data]]; cbn [fst] in Hfs, Hout;
    [error_outcome|].
  destruct (detect_outliers parse_numeric sampled_data)
    as [sampled_data' [e|outliers]]; [error_outcome|].
  destruct (negb (empty outliers)).
  - destruct (assemble_report sampled_data' outliers) as [report [e|u]];
      [error_outcome|].
    destruct (csv_lines report report_columns) as [e|ls];
      [error_outcome|].
    unfold open_write. destruct (_ || _); [error_outcome|].
    eexists. split; [reflexivity|]. unfold print; cbn [fs stdout rng fst].
    right. rewrite Hout, Hfs. eauto.
  - eexists. split; [reflexivity|]. unfold print; cbn [fs stdout rng fst].
    left. split; [exact Hfs|].
    eexists. split; [now rewrite Hout | now left].
Qed.

(** X13.  [process_file] writes at most one file, the report of its input:
    it prints exactly one line; no directory appears and no path changes
    its protection; every path other than the report path holds what it
    held before, and so does the input file itself; unless the line is
    [Outliers found in], the file system is as it was, and when it is, the
    report path holds the lines of a report. *)
Theorem process_file_writes_at_most_its_report file_path w :
  exists line,
    stdout (fst (process_file parse_datetime parse_numeric file_path w))
    = stdout w ++ [line] /\
    dirs (fs (fst (process_file parse_datetime parse_numeric file_path w)))
    = dirs (fs w) /\
    readonly (fs (fst (process_file parse_datetime parse_numeric file_path w)))
    = readonly (fs w) /\
    (forall p,
        p <> report_path file_path ->
        lookup_file p
          (files (fs (fst (process_file parse_datetime parse_numeric
                                        file_path w))))
        = lookup_file p (files (fs w))) /\
    lookup_file file_path
      (files (fs (fst (process_file parse_datetime parse_numeric file_path w))))
    = lookup_file file_path (files (fs w)) /\
    (line <> found_line file_path ->
     fs (fst (process_file parse_datetime parse_numeric file_path w)) = fs w) /\
    (line = found_line file_path ->
     exists ls,
       lookup_file (report_path file_path)
         (files (fs (fst (process_file parse_datetime parse_numeric
                                       file_path w))))
       = Some (Lines ls)).
Proof.
  destruct (process_file_outcomes file_path w)
    as (w' & -> & [(Hfs & line & Hout & Hline) | (Hout & ls & Hfs)]);
    cbn [fst].
  - exists line. rewrite Hfs. repeat split; auto.
    intros ->. destruct Hline as [H | (e & H)]; discriminate H.
  - exists (found_line file_path). rewrite Hfs. cbn [dirs files readonly].
    repeat split; auto.
    + intros p Hp. now apply lookup_store_other.
    + apply lookup_store_other. intros H. symmetry in H.
      now apply report_path_differs in H.
    + congruence.
    + intros _. exists ls. apply lookup_store.
Qed.

(** The loop over the [.csv] entries of a listing is the run of
    [process_file] on their paths, in the order of the listing. *)
Lemma for_each_csv directory listing w :
  for_each listing
    (fun file =>
       let file_path := path_join directory file in
       if is_csv file
       then process_file parse_datetime parse_numeric file_path
       else ret tt) w
  = for_each (map (path_join directory) (filter is_csv listing))
             (process_file parse_datetime parse_numeric) w.
Proof.
  revert w; induction listing as [|file rest IH]; intros w; [reflexivity|].
  cbn [for_each filter]. cbv zeta. destruct (is_csv file).
  - cbn [map for_each]. unfold bind.
    destruct (process_file parse_datetime parse_numeric
                           (path_join directory file) w) as [w1 [e|u]];
      [reflexivity | apply IH].
  - unfold bind, ret at 1. apply IH.
Qed.

(** A run of [process_file] over any list of paths returns normally. *)
Lemma for_each_process_file_returns paths w :
  snd (for_each paths (process_file parse_datetime parse_numeric) w) = inr tt.
Proof.
  revert w; induction paths as [|p rest IH]; intros w; [reflexivity|].
  cbn [for_each]. unfold bind.
  destruct (process_file_outcomes p w) as (w' & -> & _). apply IH.
Qed.

(** The Orchestrator on a directory with one or two [.csv] entries. *)
Lemma orchestrator_run directory w :
  mem_string directory (dirs (fs w)) = true ->
  List.length (filter is_csv (entries (fs w) directory)) = 1 \/
  List.length (filter is_csv (entries (fs w) directory)) = 2 ->
  process_files_in_directory parse_datetime parse_numeric directory w
  = for_each (map (path_join directory)
                  (filter is_csv (entries (fs w) directory)))
             (process_file parse_datetime parse_numeric) w.
Proof.
  intros Hdir Hcount.
  unfold process_files_in_directory, try_except, bind, os_listdir.
  rewrite Hdir.
  assert (Hok : negb ((List.length (filter is_csv (entries (fs w) directory))
                       =? 1)
                      || (List.length (filter is_csv (entries (fs w) directory))
                          =? 2)) = false).
  { destruct Hcount as [-> | ->]; reflexivity. }
  rewrite Hok, Hdir.
  pose proof (for_each_csv directory (entries (fs w) directory) w) as Hloop.
  cbv zeta in Hloop. rewrite Hloop. clear Hloop.
  pose proof (for_each_process_file_returns
                (map (path_join directory)
                     (filter is_csv (entries (fs w) directory))) w) as Hret.
  destruct (for_each _ _ w) as [w' [e|u]]; cbn [snd] in Hret;
    [discriminate Hret | reflexivity].
Qed.

(** The Orchestrator on anything else. *)
Lemma orchestrator_refusal directory w :
  mem_string directory (dirs (fs w)) = false \/
  (List.length (filter is_csv (entries (fs w) directory)) <> 1 /\
   List.length (filter is_csv (entries (fs w) directory)) <> 2) ->
  exists e,
    process_files_in_directory parse_datetime parse_numeric directory w
    = (w, inl e).
Proof.
  intros H.
  unfold process_files_in_directory, try_except, bind, os_listdir.
  destruct (mem_string directory (dirs (fs w))) eqn:Hdir.
  - destruct H as [H | [H1 H2]]; [discriminate H|].
    destruct (Nat.eqb_spec
                (List.length (filter is_csv (entries (fs w) directory))) 1);
      [contradiction|].
    destruct (Nat.eqb_spec
                (List.length (filter is_csv (entries (fs w) directory))) 2);
      [contradiction|].
    eexists; reflexivity.
  - destruct (lookup_file directory (files (fs w))); eexists; reflexivity.
Qed.

(** X15.  When the directory exists and lists one or two [.csv] entries,
    the Orchestrator is the run of [process_file] on the paths of those
    entries, in the order of the listing taken before the first file is
    processed: entries that do not end in [.csv] are skipped, and a report
    written during the run is not picked up by the same run. *)
Theorem orchestrator_processes_the_csv_entries directory w :
  mem_string directory (dirs (fs w)) = true ->
  List.length (filter is_csv (entries (fs w) directory)) = 1 \/
  List.length (filter is_csv (entries (fs w) directory)) = 2 ->
  process_files_in_directory parse_datetime parse_numeric directory w
  = for_each (map (path_join directory)
                  (filter is_csv (entries (fs w) directory)))
             (process_file parse_datetime parse_numeric) w
  /\
  snd (process_files_in_directory parse_datetime parse_numeric directory w)
  = inr tt.
Proof.
  intros Hdir Hcount. rewrite (orchestrator_run _ _ Hdir Hcount).
  split; [reflexivity | apply for_each_process_file_returns].
Qed.

(** A run of [process_file] over a list of paths stores reports of these
    paths and nothing else. *)
Lemma for_each_process_file_frame paths w p :
  (forall q, In q paths -> p <> report_path q) ->
  lookup_file p
    (files (fs (fst (for_each paths
                       (process_file parse_datetime parse_numeric) w))))
  = lookup_file p (files (fs w)) /\
  dirs (fs (fst (for_each paths
                   (process_file parse_datetime parse_numeric) w)))
  = dirs (fs w) /\
  readonly (fs (fst (for_each paths
                       (process_file parse_datetime parse_numeric) w)))
  = readonly (fs w).
Proof.
  revert w; induction paths as [|q rest IH]; intros w Hp; [now repeat split|].
  cbn [for_each]. unfold bind.
  destruct (process_file_outcomes q w)
    as (w' & -> & [(Hfs & _) | (_ & ls & Hfs)]).
  - rewrite <- Hfs. apply IH. intros q' Hq'. apply Hp. now right.
  - destruct (IH w') as (Hl & Hd & Hr);
      [intros q' Hq'; apply Hp; now right|].
    rewrite Hl, Hd, Hr, Hfs. cbn [files dirs readonly].
    repeat split. apply lookup_store_other. apply Hp. now left.
Qed.

(** X19.  The Orchestrator changes no path other than the reports of the
    [.csv] entries it lists: a path that is not the report path of such an
    entry holds after the run what it held before, whether the run
    returns or fails; and no run makes a directory or changes the
    protection of a path. *)
Theorem orchestrator_touches_only_reports directory w p :
  (forall file,
      In file (entries (fs w) directory) ->
      is_csv file = true ->
      p <> report_path (path_join directory file)) ->
  lookup_file p
    (files (fs (fst (process_files_in_directory parse_datetime parse_numeric
                                                directory w))))
  = lookup_file p (files (fs w)) /\
  dirs (fs (fst (process_files_in_directory parse_datetime parse_numeric
                                            directory w)))
  = dirs (fs w) /\
  readonly (fs (fst (process_files_in_directory parse_datetime parse_numeric
                                                directory w)))
  = readonly (fs w).
Proof.
  intros Hp.
  assert (Hrefuse :
    mem_string directory (dirs (fs w)) = false \/
    (List.length (filter is_csv (entries (fs w) directory)) <> 1 /\
     List.length (filter is_csv (entries (fs w) directory)) <> 2) ->
    fst (process_files_in_directory parse_datetime parse_numeric directory w)
    = w).
  { intros H. destruct (orchestrator_refusal directory w H) as (e & ->).
    reflexivity. }
  destruct (mem_string directory (dirs (fs w))) eqn:Hdir;
    [|rewrite Hrefuse by (now left); now repeat split].
  set (file_count := List.length (filter is_csv (entries (fs w) directory)))
    in *.
  assert (Hcount : file_count = 1 \/ file_count = 2 \/
                   (file_count <> 1 /\ file_count <> 2)) by lia.
  destruct Hcount as [H | [H | H]].
  3: { rewrite Hrefuse by (now right). now repeat split. }
  all: rewrite (orchestrator_run _ _ Hdir) by (subst file_count; auto);
    apply for_each_process_file_frame;
    intros q Hq; apply in_map_iff in Hq; destruct Hq as (file & <- & Hin);
    apply filter_In in Hin; destruct Hin as [Hin Hcsv]; now apply Hp.
Qed.

(** X7.  With the Sampler as shipped, [process_file] reports an error for
    every file and never gets to score one: whatever the path and the
    world, it prints one line [Error processing <path>: ...], returns
    normally and changes nothing else; for a file that loads and has a
    timestamp that reads as a date, in particular for a file with
    outliers, the error is the one of the call of [sample]. *)
Theorem process_file_reports_an_error_for_every_file file_path w :
  (exists e,
      process_file parse_datetime parse_numeric file_path w
      = (printed w (error_line file_path e), inr tt))
  /\
  (forall rows,
      read_csv_with_headers file_path w = (w, inr (table rows)) ->
      forallb isnull (coerced_timestamps parse_datetime rows) = false ->
      process_file parse_datetime parse_numeric file_path w
      = (printed w (error_line file_path SampleError), inr tt)).
Proof.
  split; [apply process_file_fails|].
  intros rows Hload Hts.
  unfold process_file, try_except.
  rewrite process_file_try_cases, Hload. cbn [snd].
  replace (empty (table rows)) with false
    by (destruct rows; [discriminate Hts | reflexivity]).
  now rewrite (random_data_points_cases _ _ _ _ _ Hload), Hts.
Qed.

(** A run of [process_file] over a list of paths prints one error line for
    each and changes nothing else. *)
Lemma for_each_process_file_fails paths w :
  exists lines,
    for_each paths (process_file parse_datetime parse_numeric) w
    = (mk_world (fs w) (stdout w ++ lines) (rng w), inr tt) /\
    Forall2 (fun p line => exists e, line = error_line p e) paths lines.
Proof.
  revert w; induction paths as [|p rest IH]; intros w.
  - exists []. split; [|constructor].
    cbn [for_each]. unfold ret. rewrite app_nil_r. now destruct w.
  - cbn [for_each]. unfold bind.
    destruct (process_file_fails p w) as (e & ->).
    destruct (IH (printed w (error_line p e))) as (lines & -> & Hlines).
    exists (error_line p e :: lines). split.
    + unfold printed; cbn [fs stdout rng]. now rewrite <- app_assoc.
    + constructor; [now exists e | exact Hlines].
Qed.

(** X8.  With the Sampler as shipped, no run of the Orchestrator writes a
    file: whether it returns or raises, the file system and the random
    source are as they were, and every line it has printed is a line
    [Error processing <path>: ...]. *)
Theorem orchestrator_writes_no_file directory w :
  fs (fst (process_files_in_directory parse_datetime parse_numeric
                                      directory w))
  = fs w /\
  rng (fst (process_files_in_directory parse_datetime parse_numeric
                                       directory w))
  = rng w /\
  exists lines,
    stdout (fst (process_files_in_directory parse_datetime parse_numeric
                                            directory w))
    = stdout w ++ lines /\
    Forall (fun line => exists p e, line = error_line p e) lines.
Proof.
  assert (Hrefuse :
    mem_string directory (dirs (fs w)) = false \/
    (List.length (filter is_csv (entries (fs w) directory)) <> 1 /\
     List.length (filter is_csv (entries (fs w) directory)) <> 2) ->
    fst (process_files_in_directory parse_datetime parse_numeric directory w)
    = w).
  { intros H. destruct (orchestrator_refusal directory w H) as (e & ->).
    reflexivity. }
  assert (Hnone : exists lines : list message,
             stdout w = stdout w ++ lines /\
             Forall (fun line => exists p e, line = error_line p e) lines).
  { exists []. split; [now rewrite app_nil_r | constructor]. }
  destruct (mem_string directory (dirs (fs w))) eqn:Hdir;
    [|rewrite Hrefuse by (now left); now repeat split].
  set (file_count := List.length (filter is_csv (entries (fs w) directory)))
    in *.
  assert (Hcount : file_count = 1 \/ file_count = 2 \/
                   (file_count <> 1 /\ file_count <> 2)) by lia.
  destruct Hcount as [H | [H | H]].
  3: { rewrite Hrefuse by (now right). now repeat split. }
  all: rewrite (orchestrator_run _ _ Hdir) by (subst file_count; auto);
    destruct (for_each_process_file_fails
                (map (path_join directory)
                     (filter is_csv (entries (fs w) directory))) w)
      as (lines & -> & Hlines);
    cbn [fst fs stdout rng]; split; [reflexivity|]; split; [reflexivity|];
    exists lines; split; [reflexivity|];
    clear - Hlines; induction Hlines as [|p line ps ls (e & ->) _ IH];
    constructor; eauto.
Qed.

End ProcessorOutcomes.

(* ===================================================================== *)
(** * More on the Scorer *)
(* ===================================================================== *)

(** Twice a standard deviation is undefined or carries no minus sign. *)
Lemma threshold_sign xs :
  match Prim2SF (2 * series_std xs) with
  | S754_infinity true | S754_finite true _ _ => False
  | _ => True
  end.
Proof.
  destruct two_SF as (m2 & e2 & H2).
  rewrite FloatAxioms.mul_spec, H2. unfold series_std.
  destruct (_ <=? 1); [rewrite nan_SF; exact I|].
  match goal with |- context [PrimFloat.sqrt ?a] =>
    generalize (sqrt_sign a); destruct (Prim2SF (PrimFloat.sqrt a))
      as [[]|[]| |[] m e] end; cbn; try contradiction; auto.
  intros _. unfold binary_round_aux.
  destruct (shr_fexp prec emax (Z.pos (m2 * m)) (e2 + e) loc_Exact) as [m1 e1].
  destruct (shr_fexp prec emax _ e1 loc_Exact) as [m3 e3].
  destruct (shr_m m3); auto.
  destruct (Z.leb e3 (emax - prec)); cbn; auto.
Qed.

(** What lies above such a threshold is positive. *)
Lemma above_threshold_positive xs d :
  (2 * series_std xs <? d)%float = true -> (0 <? d)%float = true.
Proof.
  generalize (threshold_sign xs).
  rewrite !FloatAxioms.ltb_spec. change (Prim2SF 0) with (S754_zero false).
  destruct (Prim2SF (2 * series_std xs)) as [[]|[]| |[] m e];
    destruct (Prim2SF d) as [[]|[]| |[] md ed]; cbn;
    intros; try reflexivity; try contradiction; try discriminate.
Qed.

Section ScorerEdges.
Variable parse_numeric : string -> option float.

Lemma isnull_any_column data name col c :
  getitem data name = inr col -> In c col -> isnull c = true ->
  isnull_any data = true.
Proof.
  unfold getitem, isnull_any. intros Hcol Hin Hnull.
  destruct (lookup_col name (columns data)) as [v|] eqn:E; [|discriminate].
  injection Hcol as ->.
  apply existsb_exists. exists (name, col). split.
  - clear Hin Hnull. induction (columns data) as [|[n v] rest IH];
      simpl in E; [discriminate|].
    destruct (String.eqb_spec n name) as [->|_].
    + injection E as ->. now left.
    + right. now apply IH.
  - apply existsb_exists. now exists c.
Qed.

(** The first text of a column that is not a number stops [to_numeric]. *)
Lemma to_numeric_text col s :
  In (Str s) col -> parse_numeric s = None ->
  exists s',
    In (Str s') col /\ parse_numeric s' = None /\
    to_numeric parse_numeric col
    = inl (mk_exn ValueError [LibText (NotNumeric s')]).
Proof.
  intros Hin Hs. induction col as [|c rest IH]; [contradiction|].
  assert (Hrest : In (Str s) rest ->
                  forall f, to_numeric_cell parse_numeric c = inr f ->
                  exists s', In (Str s') (c :: rest) /\
                             parse_numeric s' = None /\
                             to_numeric parse_numeric (c :: rest)
                             = inl (mk_exn ValueError
                                           [LibText (NotNumeric s')])).
  { intros H f Hc. destruct (IH H) as (s' & Hin' & Hs' & Hrun).
    exists s'. split; [now right|]. split; [exact Hs'|].
    cbn [to_numeric]. now rewrite Hc, Hrun. }
  destruct c as [|t|f|t].
  - destruct Hin as [H|H]; [discriminate H | now apply (Hrest H nan)].
  - cbn [to_numeric to_numeric_cell] in *.
    destruct (parse_numeric t) as [f|] eqn:Et.
    + destruct Hin as [H|H]; [congruence | now apply (Hrest H f)].
    + exists t. split; [now left|]. now split.
  - destruct Hin as [H|H]; [discriminate H | now apply (Hrest H f)].
  - destruct Hin as [H|H];
      [discriminate H | now apply (Hrest H (float_of_Z t))].
Qed.

(** X9.  A missing value anywhere in the window, in any of its columns,
    makes the Scorer fail with MissingValues before it assigns to the
    window, which is left as it was. *)
Theorem missing_value_anywhere_rejects_window data name col c :
  getitem data name = inr col ->
  In c col ->
  isnull c = true ->
  detect_outliers parse_numeric data = (data, inl MissingValues).
Proof.
  intros Hcol Hin Hnull. rewrite detect_outliers_cases.
  now rewrite (isnull_any_column _ _ _ _ Hcol Hin Hnull).
Qed.

(** X10.  In a window without missing values: when there is no column
    [Price] the Scorer fails with the base exception and the text
    [Unexpected error: 'Price']; when a price is a text that is not a
    number it fails with a ValueError whose text starts with
    [Error detecting outliers: ] and names a price that is not a number.
    In both cases the window is left as it was. *)
Theorem scorer_needs_numeric_prices data :
  isnull_any data = false ->
  (lookup_col "Price" (columns data) = None ->
   detect_outliers parse_numeric data
   = (data, inl (mk_exn Exception_
                        [Txt "Unexpected error: ";
                         LibText (MissingColumn "Price")])))
  /\
  (forall col s,
      getitem data "Price" = inr col ->
      In (Str s) col ->
      parse_numeric s = None ->
      exists s',
        In (Str s') col /\ parse_numeric s' = None /\
        detect_outliers parse_numeric data
        = (data, inl (mk_exn ValueError
                             [Txt "Error detecting outliers: ";
                              LibText (NotNumeric s')]))).
Proof.
  intros Hnull. split.
  - intros Hcol. rewrite detect_outliers_cases, Hnull.
    unfold getitem. now rewrite Hcol.
  - intros col s Hcol Hin Hs.
    destruct (to_numeric_text col s Hin Hs) as (s' & Hin' & Hs' & Hrun).
    exists s'. split; [exact Hin'|]. split; [exact Hs'|].
    now rewrite detect_outliers_cases, Hnull, Hcol, Hrun.
Qed.

(** X11.  The test of the Scorer is one-sided about the mean: a flagged row
    has a price strictly above the mean of the window (its Price-Mean is
    positive), so no row priced at or below the mean is ever flagged,
    however far below it lies. *)
Theorem flagged_rows_lie_above_the_mean data price_col prices :
  isnull_any data = false ->
  getitem data "Price" = inr price_col ->
  to_numeric parse_numeric price_col = inr prices ->
  NoDup (index data) ->
  forall i label price,
    nth_error (index data) i = Some label ->
    nth_error prices i = Some price ->
    (flagged parse_numeric data label = true ->
     (0 <? price - series_mean prices)%float = true)
    /\
    ((price - series_mean prices <=? 0)%float = true ->
     flagged parse_numeric data label = false).
Proof.
  intros Hnull Hcol Hnum Hnd i label price Hl Hp.
  assert (Hpos : flagged parse_numeric data label = true ->
                 (0 <? price - series_mean prices)%float = true).
  { unfold flagged. rewrite detect_outliers_cases, Hnull, Hcol, Hnum.
    destruct (_ || _); cbn [snd]; [discriminate|].
    rewrite index_scorer_output, existsb_eqb_In.
    intros Hin. apply (above_threshold_positive prices).
    apply (in_select_nodup _ _ i label _ Hnd Hl
             (outlier_mask_nth prices i price Hp)).
    exact Hin. }
  split; [exact Hpos|].
  intros Hle. destruct (flagged parse_numeric data label); [|reflexivity].
  specialize (Hpos eq_refl). apply ltb_leb_exclusive in Hpos. congruence.
Qed.

End ScorerEdges.

(* ===================================================================== *)
(** * More on the Loader *)
(* ===================================================================== *)

Lemma nrows_table rows : nrows (table rows) = List.length rows.
Proof. unfold nrows, table; cbn [index]. apply length_seq. Qed.

Lemma header_line_labels first :
  string_list_eqb (map label_of first) canonical_header = true <->
  first = header_line.
Proof.
  split.
  - intros H. now apply label_of_header, string_list_eqb_eq.
  - intros ->. reflexivity.
Qed.

Lemma read_csv_with_headers_eq file_path w r :
  snd (read_csv_with_headers file_path w) = r ->
  read_csv_with_headers file_path w = (w, r).
Proof. rewrite read_csv_with_headers_cases. cbn [snd]. now intros ->. Qed.

(** X3.  For a file whose lines all have three fields, the Loader returns
    and changes nothing: the table holds the lines that follow the first
    one when the first line is the header [Name,Timestamp,Price], and all
    the lines of the file otherwise; it has the three columns Name,
    Timestamp and Price in this order, each with one cell per row, under
    the row labels 0, 1, ... *)
Theorem loaded_table_is_the_file_less_its_header file_path w first rest :
  snd (open_read file_path w) = inr (Lines (first :: rest)) ->
  Forall (fun l => List.length l = 3) (first :: rest) ->
  exists rows,
    read_csv_with_headers file_path w = (w, inr (table rows)) /\
    (first = header_line -> rows = rest) /\
    (first <> header_line -> rows = first :: rest) /\
    map fst (columns (table rows)) = canonical_header /\
    index (table rows) = seq 0 (List.length rows) /\
    nrows (table rows) = List.length rows /\
    Forall (fun c => List.length (snd c) = List.length rows)
           (columns (table rows)).
Proof.
  intros Hopen Hlines.
  assert (Hshape : forall rows,
    map fst (columns (table rows)) = canonical_header /\
    index (table rows) = seq 0 (List.length rows) /\
    nrows (table rows) = List.length rows /\
    Forall (fun c => List.length (snd c) = List.length rows)
           (columns (table rows))).
  { intros rows. split; [reflexivity|]. split; [reflexivity|].
    split; [apply nrows_table|].
    repeat constructor; cbn [snd]; apply length_map. }
  assert (Hfirst : List.length (map label_of first) = 3).
  { rewrite length_map. now inversion Hlines. }
  assert (Hrest : Forall (fun l => List.length l = 3) rest)
    by now inversion Hlines.
  assert (Hrun : read_csv_with_headers file_path w
                 = (w, inr (table (if string_list_eqb (map label_of first)
                                                     canonical_header
                                   then rest else first :: rest)))).
  { rewrite read_csv_with_headers_cases, Hopen.
    unfold frame_of at 1. rewrite Hfirst.
    rewrite (fit_all_exact 3 (firstn 1 rest)) by (now apply Forall_take).
    rewrite !frame_of_canonical.
    destruct (string_list_eqb (map label_of first) canonical_header).
    - now rewrite (fit_all_exact 3 rest).
    - now rewrite (fit_all_exact 3 (first :: rest)). }
  destruct (string_list_eqb (map label_of first) canonical_header) eqn:E.
  - apply header_line_labels in E. exists rest.
    split; [exact Hrun|]. split; [reflexivity|].
    split; [congruence | apply Hshape].
  - assert (Hne : first <> header_line).
    { intros Hh. apply header_line_labels in Hh. congruence. }
    exists (first :: rest).
    split; [exact Hrun|]. split; [congruence|].
    split; [reflexivity | apply Hshape].
Qed.

Lemma loader_error_kinds file_path e :
  (cls e = FileNotFoundError /\
   loader_error file_path e = FileNotFound file_path) \/
  (cls e <> FileNotFoundError /\
   loader_error file_path e
   = mk_exn Exception_ (Txt "Error reading CSV file: " :: msg e)).
Proof.
  unfold loader_error. destruct (cls e); auto; right; split; auto; discriminate.
Qed.



Section LoaderFailures.
Variable parse_datetime : string -> option Z.
Variable parse_numeric : string -> option float.


(** X5.  A file that holds the header and nothing else loads as a table
    without rows: [process_file] prints [File '<path>' is empty.] as the
    error of the file and changes nothing else; the Sampler, called on it
    directly, fails with InvalidTimestamps. *)
Theorem header_only_file_is_reported_empty file_path num_points w :
  snd (open_read file_path w) = inr (Lines [header_line]) ->
  read_csv_with_headers file_path w = (w, inr (table [])) /\
  process_file parse_datetime parse_numeric file_path w
  = (printed w (error_line file_path (EmptyFile file_path)), inr tt) /\
  random_data_points parse_datetime file_path num_points w
  = (w, inl InvalidTimestamps).
Proof.
  intros Hopen.
  assert (Hload : read_csv_with_headers file_path w = (w, inr (table []))).
  { rewrite read_csv_with_headers_cases, Hopen. reflexivity. }
  split; [exact Hload|]. split.
  - unfold process_file, try_except.
    rewrite process_file_try_cases, Hload. reflexivity.
  - now rewrite (random_data_points_cases _ _ _ _ _ Hload).
Qed.

End LoaderFailures.

(* ===================================================================== *)
(** * More on the Sampler *)
(* ===================================================================== *)

Section SamplerEdges.
Variable parse_datetime : string -> option Z.

Lemma forallb_coerced rows :
  forallb isnull (coerced_timestamps parse_datetime rows) = true <->
  Forall (fun r => to_datetime_cell parse_datetime (nth 1 r Null) = Null) rows.
Proof.
  unfold coerced_timestamps. rewrite map_map, forallb_forall, Forall_forall.
  split.
  - intros H r Hr.
    specialize (H _ (in_map (fun r => to_datetime_cell parse_datetime
                                        (nth 1 r Null)) rows r Hr)).
    cbv beta in H. revert H. generalize (nth 1 r Null). intros c.
    destruct c as [|s|f|t]; cbn; try discriminate; auto.
    + destruct (parse_datetime s); [discriminate | reflexivity].
    + destruct (_ || _); [reflexivity|].
      destruct (_ <? _)%Z; [discriminate | reflexivity].
  - intros H c Hc. apply in_map_iff in Hc. destruct Hc as (r & <- & Hr).
    now rewrite (H r Hr).
Qed.

(** X6.  The Sampler fails with InvalidTimestamps exactly when no row of
    the table has a timestamp that reads as a date, a table without rows
    included; it fails before the draw, and the world is as it was. *)
Theorem invalid_timestamps_iff_no_date file_path num_points w rows :
  read_csv_with_headers file_path w = (w, inr (table rows)) ->
  (snd (random_data_points parse_datetime file_path num_points w)
   = inl InvalidTimestamps
   <->
   Forall (fun r => to_datetime_cell parse_datetime (nth 1 r Null) = Null)
          rows)
  /\
  (snd (random_data_points parse_datetime file_path num_points w)
   = inl InvalidTimestamps ->
   fst (random_data_points parse_datetime file_path num_points w) = w).
Proof.
  intros Hload. rewrite <- forallb_coerced.
  rewrite (random_data_points_cases _ _ _ _ _ Hload).
  destruct (forallb isnull (coerced_timestamps parse_datetime rows)).
  - repeat split; auto.
  - cbn [snd]. repeat split; intros H; discriminate H.
Qed.

(** X2.  The Sampler as shipped never returns a window.  Whatever the
    path, the sample size and the world, it raises and leaves the world as
    it was, with one of four errors: the file is not found; the file
    cannot be read ([Unexpected error: Error reading CSV file: ...]); no
    timestamp reads as a date (InvalidTimestamps); or, in every other
    case, the call of [sample] on an Index fails
    ([Unexpected error: ...]).  The error InsufficientData is never
    raised. *)
Theorem sampler_never_returns_a_window file_path num_points w :
  exists e,
    random_data_points parse_datetime file_path num_points w = (w, inl e) /\
    (e = FileNotFound file_path \/
     (exists m,
         e = mk_exn Exception_
                    (Txt "Unexpected error: "
                     :: Txt "Error reading CSV file: " :: m)) \/
     e = InvalidTimestamps \/
     e = SampleError) /\
    e <> InsufficientData.
Proof.
  destruct (snd (read_csv_with_headers file_path w)) as [e|df] eqn:E.
  - rewrite (random_data_points_load_error _ _ _ _ _ E).
    eexists. split; [reflexivity|].
    rewrite read_csv_with_headers_cases in E. cbn [snd] in E.
    assert (He : exists e', e = loader_error file_path e').
    { destruct (snd (open_read file_path w)) as [e'|[|[|first rest]]];
        cbv beta match in E; try (injection E as <-; eauto; fail).
      destruct (frame_of (map label_of first) (firstn 1 rest));
        cbv beta match in E; [injection E as <-; eauto|].
      destruct (string_list_eqb _ _);
        match type of E with
        | context [match ?x with inl _ => _ | inr _ => _ end] =>
            destruct x
        end; cbv beta match in E; try discriminate E;
        injection E as <-; eauto. }
    destruct He as (e' & ->).
    destruct (loader_error_kinds file_path e') as [(_ & ->) | (_ & ->)].
    + split; [now left | discriminate].
    + split; [right; left; eexists; reflexivity | discriminate].
  - apply read_csv_with_headers_eq in E.
    destruct (read_csv_with_headers_table _ _ _ _ E) as (_ & rows & ->).
    rewrite (random_data_points_cases _ _ _ _ _ E).
    destruct (forallb _ _); eexists; (split; [reflexivity|]).
    + split; [right; right; now left | discriminate].
    + split; [right; right; now right | discriminate].
Qed.

End SamplerEdges.

(* ===================================================================== *)
(** * After the sampling *)
(* ===================================================================== *)

Section WindowToScorer.
Variable parse_numeric : string -> option float.

(** X18.  For every window that is scored and in which no price lies above
    the threshold, what [process_file] does with the window is to print
    [No outliers found in <path>]: it writes no file and changes nothing
    else. *)
Theorem no_price_above_threshold_writes_no_report
  file_path w window price_col prices :
  isnull_any window = false ->
  getitem window "Price" = inr price_col ->
  to_numeric parse_numeric price_col = inr prices ->
  PrimFloat.is_infinity (series_mean prices)
  || PrimFloat.is_infinity (series_std prices) = false ->
  Forall (fun p =>
            (2 * series_std prices <? p - series_mean prices)%float = false)
         prices ->
  process_sampled parse_numeric file_path window w
  = (printed w (none_line file_path), inr tt).
Proof.
  intros Hnull Hcol Hnum Hfin Hbelow.
  assert (Hmask : select (outlier_mask prices) (index window) = []).
  { apply select_none. unfold outlier_mask, price_minus_mean, threshold.
    rewrite map_map. apply Forall_map. exact Hbelow. }
  assert (Hempty : empty (mask_rows (scored_window window prices)
                                    (outlier_mask prices)) = true).
  { unfold empty, mask_rows. cbn [index]. unfold scored_window at 1.
    cbn [index setitem]. now rewrite Hmask. }
  rewrite process_sampled_cases, detect_outliers_cases.
  rewrite Hnull, Hcol, Hnum, Hfin.
  unfold scorer_output. rewrite Hempty. cbn [negb]. rewrite Hempty.
  reflexivity.
Qed.

End WindowToScorer.

(* ===================================================================== *)
(** * The further statements at sample inputs *)
(* ===================================================================== *)

(** X3 at the file of 30 prices under its
    header: the table holds the 30 lines that follow the header. *)
Lemma loaded_table_is_the_file_less_its_header_witness :
  exists rows,
    read_csv_with_headers "dir/a.csv" spike_world
    = (spike_world, inr (table rows)) /\
    (header_line = header_line -> rows = price_lines spike_prices) /\
    (header_line <> header_line ->
     rows = header_line :: price_lines spike_prices) /\
    map fst (columns (table rows)) = canonical_header /\
    index (table rows) = seq 0 (List.length rows) /\
    nrows (table rows) = List.length rows /\
    Forall (fun c => List.length (snd c) = List.length rows)
           (columns (table rows)).
Proof.
  apply (loaded_table_is_the_file_less_its_header
           "dir/a.csv" spike_world header_line (price_lines spike_prices)).
  - vm_compute; reflexivity.
  - repeat constructor.
Defined.


(** X5 at a file that holds only the header. *)
Lemma header_only_file_is_reported_empty_witness :
  read_csv_with_headers "dir/a.csv" header_only_world
  = (header_only_world, inr (table [])) /\
  process_file demo_datetime demo_numeric "dir/a.csv" header_only_world
  = (printed header_only_world
       (error_line "dir/a.csv" (EmptyFile "dir/a.csv")), inr tt) /\
  random_data_points demo_datetime "dir/a.csv" 30 header_only_world
  = (header_only_world, inl InvalidTimestamps).
Proof.
  apply (header_only_file_is_reported_empty
           demo_datetime demo_numeric "dir/a.csv" 30 header_only_world).
  vm_compute; reflexivity.
Defined.

(** X6 at a file of one row without a date. *)
Lemma invalid_timestamps_iff_no_date_witness :
  snd (random_data_points demo_datetime "dir/a.csv" 30 undated_world)
  = inl InvalidTimestamps.
Proof.
  refine (proj2 (proj1 (invalid_timestamps_iff_no_date
                          demo_datetime "dir/a.csv" 30 undated_world
                          undated_rows _)) _).
  - vm_compute; reflexivity.
  - repeat constructor.
Defined.

(** X7 at the file of 30 prices with an outlier: the file gets the error
    of the call of [sample], and no report. *)
Lemma process_file_reports_an_error_for_every_file_witness :
  process_file demo_datetime demo_numeric "dir/a.csv" spike_world
  = (printed spike_world (error_line "dir/a.csv" SampleError), inr tt).
Proof.
  apply (proj2 (process_file_reports_an_error_for_every_file
                  demo_datetime demo_numeric "dir/a.csv" spike_world)
           (price_lines spike_prices)).
  - vm_compute; reflexivity.
  - vm_compute; reflexivity.
Defined.

(** X9 at a window with a missing name. *)
Lemma missing_value_anywhere_rejects_window_witness :
  detect_outliers demo_numeric nameless_window
  = (nameless_window, inl MissingValues).
Proof.
  apply (missing_value_anywhere_rejects_window
           demo_numeric nameless_window "Name" [Str "ACME"; Null] Null).
  - reflexivity.
  - simpl; auto.
  - reflexivity.
Defined.

(** X10 at a window whose second price is the text [abc]. *)
Lemma scorer_needs_numeric_prices_witness :
  exists s',
    In (Str s') [Num 1%float; Str "abc"] /\ demo_numeric s' = None /\
    detect_outliers demo_numeric text_price_window
    = (text_price_window,
       inl (mk_exn ValueError
                   [Txt "Error detecting outliers: ";
                    LibText (NotNumeric s')])).
Proof.
  refine (proj2 (scorer_needs_numeric_prices demo_numeric text_price_window _)
                [Num 1%float; Str "abc"] "abc" _ _ _).
  - reflexivity.
  - reflexivity.
  - simpl; auto.
  - reflexivity.
Defined.

(** X11 at the window of 29 prices 100 and one price 1000: the flagged
    price lies above the mean. *)
Lemma flagged_rows_lie_above_the_mean_witness :
  (0 <? 1000 - series_mean spike_prices)%float = true.
Proof.
  refine (proj1 (flagged_rows_lie_above_the_mean
                   demo_numeric (price_window spike_prices)
                   (map Num spike_prices) spike_prices
                   _ _ _ _ 29 29 1000%float _ _) _).
  - vm_compute; reflexivity.
  - vm_compute; reflexivity.
  - vm_compute; reflexivity.
  - apply seq_NoDup.
  - vm_compute; reflexivity.
  - vm_compute; reflexivity.
  - vm_compute; reflexivity.
Defined.

(** X15 at a directory of two [.csv] files and a file of notes. *)
Lemma orchestrator_processes_the_csv_entries_witness :
  process_files_in_directory demo_datetime demo_numeric "dir" two_files_world
  = for_each (map (path_join "dir")
                  (filter is_csv (entries (fs two_files_world) "dir")))
             (process_file demo_datetime demo_numeric) two_files_world
  /\
  snd (process_files_in_directory demo_datetime demo_numeric "dir"
                                  two_files_world)
  = inr tt.
Proof.
  apply (orchestrator_processes_the_csv_entries
           demo_datetime demo_numeric "dir" two_files_world).
  - vm_compute; reflexivity.
  - right. vm_compute; reflexivity.
Defined.

(** X18 at a window of thirty equal prices. *)
Lemma no_price_above_threshold_writes_no_report_witness :
  process_sampled demo_numeric "dir/a.csv" (price_window flat_prices)
                  (demo_world [] [])
  = (printed (demo_world [] []) (none_line "dir/a.csv"), inr tt).
Proof.
  apply (no_price_above_threshold_writes_no_report
           demo_numeric "dir/a.csv" (demo_world [] [])
           (price_window flat_prices) (map Num flat_prices) flat_prices).
  - vm_compute; reflexivity.
  - vm_compute; reflexivity.
  - vm_compute; reflexivity.
  - vm_compute; reflexivity.
  - unfold flat_prices.
    repeat (apply Forall_cons; [vm_compute; reflexivity|]).
    apply Forall_nil.
Defined.

(** X19 at the directory of two [.csv] files and a file of notes: the notes
    are as they were after the run. *)
Lemma orchestrator_touches_only_reports_witness :
  lookup_file "dir/notes.txt"
    (files (fs (fst (process_files_in_directory demo_datetime demo_numeric
                                                "dir" two_files_world))))
  = lookup_file "dir/notes.txt" (files (fs two_files_world)).
Proof.
  refine (proj1 (orchestrator_touches_only_reports
                   demo_datetime demo_numeric "dir" two_files_world
                   "dir/notes.txt" _)).
  intros file Hin _. vm_compute in Hin.
  destruct Hin as [<- | [<- | [<- | []]]]; vm_compute; discriminate.
Defined.

